(** * Dosirak storefront: cart, checkout and admin console of [App.tsx]

    A shallow embedding of the client-side logic of [src/App.tsx] together
    with the proofs of its specified properties.

    Conventions of the embedding:
    - a JavaScript [number] that holds an amount of won, a quantity or a
      timestamp in milliseconds is a [Z]; the one place where the code can
      see [NaN] (the price field of the add-menu form) has its own type;
    - a JavaScript string is a [string] (its UTF-8 bytes), so [===] on
      strings is equality of byte sequences;
    - an array is a [list], in the order of the array;
    - React state is a record, a state setter is a function on that record,
      and a handler is a function from the state before to the state after;
    - a call to the remote store is appended to a log of requests, and the
      answer of the outside world (does the write succeed, does the user
      confirm, what time is it) is an argument of the handler. *)

From stdpp Require Import base tactics option list numbers strings.
From Stdlib Require Import Ascii ZArith QArith Lia.

Local Open Scope string_scope.
Local Open Scope Z_scope.
Local Open Scope list_scope.

(** ** Data model ([types.ts]) *)

Inductive Category := premium | regular | diet.

Inductive OrderStatus := pending | preparing | delivering | completed | cancelled.

Inductive DeliveryTime := lunch | dinner.

Module MenuItem.
Record t := mk {
  id : string;
  name : string;
  description : string;
  price : Z;
  imageUrl : string;
  category : Category;
  calories : option Z;
  available : bool
}.
End MenuItem.

(** [interface CartItem extends MenuItem { quantity: number }] *)
Module CartItem.
Record t := mk {
  id : string;
  name : string;
  description : string;
  price : Z;
  imageUrl : string;
  category : Category;
  calories : option Z;
  available : bool;
  quantity : Z
}.

(** [{ ...item, quantity: q }] for a menu item [item]. *)
Definition of_menu (item : MenuItem.t) (q : Z) : t :=
  mk (MenuItem.id item) (MenuItem.name item) (MenuItem.description item)
     (MenuItem.price item) (MenuItem.imageUrl item) (MenuItem.category item)
     (MenuItem.calories item) (MenuItem.available item) q.

(** [{ ...i, quantity: q }] for a cart item [i]. *)
Definition with_quantity (i : t) (q : Z) : t :=
  mk (id i) (name i) (description i) (price i) (imageUrl i) (category i)
     (calories i) (available i) q.
End CartItem.

Definition ADMIN_EMAIL : string := "acehwan69@gmail.com".

Module UserProfile.
Record t := mk {
  uid : string;
  email : option string;
  displayName : option string;
  photoURL : option string;
  isAdmin : bool
}.
End UserProfile.

(** [Omit<Order, 'id'>]: the record handed to the store, which assigns the
    identifier. *)
Module OrderData.
Record t := mk {
  userId : string;
  userEmail : string;
  items : list CartItem.t;
  totalAmount : Z;
  status : OrderStatus;
  address : string;
  contact : string;
  deliveryDate : string;
  deliveryTime : DeliveryTime;
  createdAt : Z
}.
End OrderData.

Module Order.
Record t := mk {
  id : string;
  data : OrderData.t
}.
Definition createdAt (o : t) : Z := OrderData.createdAt (data o).
Definition totalAmount (o : t) : Z := OrderData.totalAmount (data o).
End Order.

(** ** Cart actions ([App], "Cart Actions") *)

Abbreviation Cart := (list CartItem.t).

(** The updater passed to [setCart] by [addToCart]:
    [prev.find(i => i.id === item.id)] decides between the [map] that
    increments and the append. *)
Definition addToCart_update (item : MenuItem.t) (prev : Cart) : Cart :=
  match list_find (λ i, CartItem.id i = MenuItem.id item) prev with
  | Some _ =>
      (λ i, if decide (CartItem.id i = MenuItem.id item)
            then CartItem.with_quantity i (CartItem.quantity i + 1)
            else i) <$> prev
  | None => prev ++ [CartItem.of_menu item 1]
  end.

(** The updater of [updateQuantity]: [Math.max(1, item.quantity + delta)]. *)
Definition updateQuantity_update (id : string) (delta : Z) (prev : Cart) : Cart :=
  (λ item, if decide (CartItem.id item = id)
           then CartItem.with_quantity item (Z.max 1 (CartItem.quantity item + delta))
           else item) <$> prev.

(** The updater of [removeFromCart]: [prev.filter(i => i.id !== id)]. *)
Definition removeFromCart_update (id : string) (prev : Cart) : Cart :=
  filter (λ i, CartItem.id i ≠ id) prev.

(** [cart.reduce((sum, item) => sum + (item.price * item.quantity), 0)],
    written three times in the source (cart drawer, checkout modal prop and
    [handleCheckout]). *)
Definition cartTotal (cart : Cart) : Z :=
  foldl (λ sum item, sum + CartItem.price item * CartItem.quantity item) 0 cart.

(** ** Application state ([App], the [useState] cells) *)

Inductive Page := home | menu | admin.

Inductive ToastType := success | error.

Record Toast := mkToast { msg : string; type : ToastType }.

(** A JavaScript number as [parseFloat] reads it from a number input: a
    decimal fraction, or [NaN] when the field is empty. *)
Inductive JsNumber := JsNaN | JsFinite (q : Q).

(** Truthiness of a number: [0] and [NaN] are falsy. *)
Definition truthy_number (n : JsNumber) : bool :=
  match n with
  | JsNaN => false
  | JsFinite q => negb (Qeq_bool q 0)
  end.

(** Truthiness of a string: only the empty string is falsy. *)
Definition truthy_string (s : string) : bool :=
  match s with
  | EmptyString => false
  | String _ _ => true
  end.

(** [Omit<MenuItem, 'id'>] as built by the add-menu form, whose price and
    calories come from [parseFloat]. *)
Module NewMenuItem.
Record t := mk {
  name : string;
  description : string;
  price : JsNumber;
  category : Category;
  available : bool;
  imageUrl : string;
  calories : option JsNumber
}.
End NewMenuItem.

(** Calls issued to the remote document store and to the identity
    provider, in the order in which they are issued. *)
Inductive Request :=
  | addDoc_orders (orderData : OrderData.t)
  | addDoc_menus (item : NewMenuItem.t)
  | deleteDoc_menus (id : string)
  | updateDoc_orders (orderId : string) (status : OrderStatus)
  | signInWithPopup
  | signOut.

Record AppState := mkApp {
  user : option UserProfile.t;
  activePage : Page;
  menus : list MenuItem.t;
  orders : list Order.t;
  cart : Cart;
  isCartOpen : bool;
  isCheckoutOpen : bool;
  toast : option Toast;
  isLoggingIn : bool;
  (** not a state cell: the log of calls sent out so far *)
  requests : list Request
}.

Definition initialApp : AppState :=
  mkApp None home [] [] [] false false None false [].

Definition setUser (u : option UserProfile.t) (s : AppState) : AppState :=
  mkApp u (activePage s) (menus s) (orders s) (cart s) (isCartOpen s)
        (isCheckoutOpen s) (toast s) (isLoggingIn s) (requests s).

Definition setActivePage (p : Page) (s : AppState) : AppState :=
  mkApp (user s) p (menus s) (orders s) (cart s) (isCartOpen s)
        (isCheckoutOpen s) (toast s) (isLoggingIn s) (requests s).

(** [setCart(prev => f(prev))]; [setCart(c)] is [setCart (λ _, c)]. *)
Definition setCart (f : Cart → Cart) (s : AppState) : AppState :=
  mkApp (user s) (activePage s) (menus s) (orders s) (f (cart s)) (isCartOpen s)
        (isCheckoutOpen s) (toast s) (isLoggingIn s) (requests s).

Definition setIsCartOpen (b : bool) (s : AppState) : AppState :=
  mkApp (user s) (activePage s) (menus s) (orders s) (cart s) b
        (isCheckoutOpen s) (toast s) (isLoggingIn s) (requests s).

Definition setIsCheckoutOpen (b : bool) (s : AppState) : AppState :=
  mkApp (user s) (activePage s) (menus s) (orders s) (cart s) (isCartOpen s)
        b (toast s) (isLoggingIn s) (requests s).

Definition setToast (t : option Toast) (s : AppState) : AppState :=
  mkApp (user s) (activePage s) (menus s) (orders s) (cart s) (isCartOpen s)
        (isCheckoutOpen s) t (isLoggingIn s) (requests s).

Definition setIsLoggingIn (b : bool) (s : AppState) : AppState :=
  mkApp (user s) (activePage s) (menus s) (orders s) (cart s) (isCartOpen s)
        (isCheckoutOpen s) (toast s) b (requests s).

Definition send (r : Request) (s : AppState) : AppState :=
  mkApp (user s) (activePage s) (menus s) (orders s) (cart s) (isCartOpen s)
        (isCheckoutOpen s) (toast s) (isLoggingIn s) (requests s ++ [r]).

(** Statements of a handler run one after the other. *)
Definition andThen (a b : AppState → AppState) : AppState → AppState :=
  λ s, b (a s).
Infix ">>" := andThen (at level 62, right associativity).

Definition skip : AppState → AppState := λ s, s.

(** ** Identity ([App], "Auth Listener" and "Auth Actions") *)

Module FirebaseUser.
Record t := mk {
  uid : string;
  email : option string;
  displayName : option string;
  photoURL : option string
}.
End FirebaseUser.

(** [firebaseUser.email === ADMIN_EMAIL], where the email may be [null]. *)
Definition email_is_admin (email : option string) : bool :=
  match email with
  | Some e => bool_decide (e = ADMIN_EMAIL)
  | None => false
  end.

(** The callback given to [onAuthStateChanged]. *)
Definition onAuthStateChanged (firebaseUser : option FirebaseUser.t) : AppState → AppState :=
  match firebaseUser with
  | Some fu =>
      setUser (Some (UserProfile.mk (FirebaseUser.uid fu) (FirebaseUser.email fu)
                       (FirebaseUser.displayName fu) (FirebaseUser.photoURL fu)
                       (email_is_admin (FirebaseUser.email fu))))
  | None => setUser None
  end.

(** [!!user?.isAdmin], the flag handed to the views and used to gate the
    admin page and the order feed. *)
Definition isAdmin (s : AppState) : bool :=
  match user s with
  | Some u => UserProfile.isAdmin u
  | None => false
  end.

(** How [signInWithPopup] ends: it resolves, or it rejects with an error
    carrying a [code] and a [message]. *)
Inductive LoginOutcome :=
  | LoginResolved
  | LoginRejected (code : string) (message : string).

Definition loginErrorMessage (code message : string) : string :=
  if decide (code = "auth/popup-closed-by-user") then "로그인 창이 닫혔습니다."
  else if decide (code = "auth/cancelled-popup-request") then "다른 로그인 팝업이 이미 열려있습니다."
  else if decide (code = "auth/popup-blocked") then "팝업이 차단되었습니다. 브라우저 설정을 확인해주세요."
  else if decide (code = "auth/operation-not-allowed") then "구글 로그인이 활성화되지 않았습니다. Firebase Console에서 Google 로그인을 사용 설정해주세요."
  else if decide (code = "auth/unauthorized-domain") then "승인되지 않은 도메인입니다. Firebase Console에서 도메인을 추가해주세요."
  else if truthy_string message then "로그인 오류: " +:+ message
  else "로그인에 실패했습니다.".

Definition handleLogin (outcome : LoginOutcome) (s : AppState) : AppState :=
  if isLoggingIn s then s
  else
    (setIsLoggingIn true >>
     send signInWithPopup >>
     match outcome with
     | LoginResolved => skip
     | LoginRejected code message =>
         setToast (Some (mkToast (loginErrorMessage code message) error))
     end >>
     setIsLoggingIn false) s.

Definition handleLogout : AppState → AppState :=
  send signOut >>
  setCart (λ _, []) >>
  setActivePage home >>
  setToast (Some (mkToast "로그아웃 되었습니다." success)).

(** ** Cart handlers *)

Definition addToCart (item : MenuItem.t) : AppState → AppState :=
  setCart (addToCart_update item) >>
  setToast (Some (mkToast (MenuItem.name item +:+ " 장바구니에 담김") success)).

Definition updateQuantity (id : string) (delta : Z) : AppState → AppState :=
  setCart (updateQuantity_update id delta).

Definition removeFromCart (id : string) : AppState → AppState :=
  setCart (removeFromCart_update id).

(** ** Dates, as the JavaScript [Date] object computes them

    A time value is a number of milliseconds since 1970-01-01T00:00:00Z.
    The local time zone is a fixed offset [tz] in milliseconds, local time
    being UTC plus [tz] (for Korea, nine hours). *)

Definition msPerDay : Z := 86400000.

Definition Day (t : Z) : Z := t `div` msPerDay.

Definition TimeWithinDay (t : Z) : Z := t `mod` msPerDay.

Definition LocalTime (tz t : Z) : Z := t + tz.

Definition UTC (tz t : Z) : Z := t - tz.

(** Day of the week of a time value, [0] being Sunday; day [0] of the
    epoch was a Thursday. *)
Definition WeekDay (t : Z) : Z := (Day t + 4) `mod` 7.

(** Year, month ([1] to [12]) and day of the month of a day number, in the
    proleptic Gregorian calendar. *)
Definition civil_from_days (z : Z) : Z * Z * Z :=
  let z := z + 719468 in
  let era := z `div` 146097 in
  let doe := z - era * 146097 in
  let yoe := (doe - doe `div` 1460 + doe `div` 36524 - doe `div` 146096) `div` 365 in
  let y := yoe + era * 400 in
  let doy := doe - (365 * yoe + yoe `div` 4 - yoe `div` 100) in
  let mp := (5 * doy + 2) `div` 153 in
  let d := doy - (153 * mp + 2) `div` 5 + 1 in
  let m := if decide (mp < 10) then mp + 3 else mp - 9 in
  (if decide (m ≤ 2) then y + 1 else y, m, d).

(** Day number of a year, a month and a day of the month; the day of the
    month may lie outside the month, and then counts on into the
    neighbouring months ([MakeDay]). *)
Definition days_from_civil (y m d : Z) : Z :=
  let y := if decide (m ≤ 2) then y - 1 else y in
  let era := y `div` 400 in
  let yoe := y - era * 400 in
  let doy := (153 * (if decide (2 < m) then m - 3 else m + 9) + 2) `div` 5 + d - 1 in
  let doe := yoe * 365 + yoe `div` 4 - yoe `div` 100 + doy in
  era * 146097 + doe - 719468.

(** [date.getDate()]: the day of the month in local time. *)
Definition getDate (tz t : Z) : Z :=
  let '(_, _, d) := civil_from_days (Day (LocalTime tz t)) in d.

(** [date.setDate(dt)]: replaces the day of the month in local time and
    keeps the local time of day. *)
Definition setDate (tz t dt : Z) : Z :=
  let lt := LocalTime tz t in
  let '(y, m, _) := civil_from_days (Day lt) in
  UTC tz (days_from_civil y m dt * msPerDay + TimeWithinDay lt).

(** The last [w] decimal digits of [n], most significant first. *)
Fixpoint digits (w : nat) (n : Z) : string :=
  match w with
  | O => ""
  | S w' => digits w' (n `div` 10) +:+
            String (Ascii.ascii_of_nat (48 + Z.to_nat (n `mod` 10))) ""
  end.

(** The year of an ISO string: four digits, or a sign and six digits
    outside of the years [0] to [9999]. *)
Definition isoYear (y : Z) : string :=
  if decide (0 ≤ y ≤ 9999) then digits 4 y
  else if decide (y < 0) then "-" +:+ digits 6 (- y)
  else "+" +:+ digits 6 y.

(** [date.toISOString()]: always in UTC, whatever the local time zone. *)
Definition toISOString (t : Z) : string :=
  let '(y, m, d) := civil_from_days (Day t) in
  let ms := TimeWithinDay t in
  isoYear y +:+ "-" +:+ digits 2 m +:+ "-" +:+ digits 2 d +:+ "T" +:+
  digits 2 (ms `div` 3600000) +:+ ":" +:+
  digits 2 ((ms `div` 60000) `mod` 60) +:+ ":" +:+
  digits 2 ((ms `div` 1000) `mod` 60) +:+ "." +:+
  digits 3 (ms `mod` 1000) +:+ "Z".

(** [s.split(c)[0]]: the part of [s] before the first [c]. *)
Fixpoint split_head (c : Ascii.ascii) (s : string) : string :=
  match s with
  | EmptyString => ""
  | String a s' => if decide (a = c) then "" else String a (split_head c s')
  end.

(** What the specification calls the calendar date of a time value in the
    local time zone, [n] days later, in the format of a date input. *)
Definition localCalendarDate (tz t n : Z) : string :=
  let '(y, m, d) := civil_from_days (Day (LocalTime tz t) + n) in
  isoYear y +:+ "-" +:+ digits 2 m +:+ "-" +:+ digits 2 d.

(** ** Checkout ([CheckoutModal] and [handleCheckout]) *)

Record CheckoutForm := mkForm {
  address : string;
  contact : string;
  deliveryDate : string;
  deliveryTime : DeliveryTime
}.

Definition initialCheckoutForm : CheckoutForm := mkForm "" "" "" lunch.

Definition setDeliveryDate (d : string) (f : CheckoutForm) : CheckoutForm :=
  mkForm (address f) (contact f) d (deliveryTime f).

(** The effect that runs when [isOpen] changes ("Set default date to
    tomorrow"), at time [now]. *)
Definition defaultDateEffect (tz now : Z) (isOpen : bool) (f : CheckoutForm) : CheckoutForm :=
  if isOpen then
    let tomorrow := now in
    let tomorrow := setDate tz tomorrow (getDate tz tomorrow + 1) in
    setDeliveryDate (split_head "T"%char (toISOString tomorrow)) f
  else f.

(** The [min] attribute of the date input, rendered at time [now]. *)
Definition minDeliveryDate (now : Z) : string :=
  split_head "T"%char (toISOString now).

(** The [disabled] attribute of the submit button:
    [!address || !contact || !deliveryDate]. *)
Definition submitDisabled (f : CheckoutForm) : bool :=
  negb (truthy_string (address f)) || negb (truthy_string (contact f))
  || negb (truthy_string (deliveryDate f)).

(** [a || b] on strings where [a] may be [null]. *)
Definition or_string (a : option string) (b : string) : string :=
  match a with
  | Some x => if truthy_string x then x else b
  | None => b
  end.

(** [handleCheckout]: [now] is [Date.now()], [stored] tells whether the
    store accepts the new order ([addDoc] resolves) or the write fails,
    [login] is how the sign-in popup ends when one is opened. *)
Definition handleCheckout (now : Z) (stored : bool) (login : LoginOutcome)
    (d : CheckoutForm) (s : AppState) : AppState :=
  match user s with
  | None =>
      (setToast (Some (mkToast "주문하려면 로그인이 필요합니다" error)) >>
       handleLogin login) s
  | Some u =>
      let totalAmount := cartTotal (cart s) in
      let orderData :=
        OrderData.mk (UserProfile.uid u)
          (or_string (UserProfile.email u) "알 수 없음")
          (cart s) totalAmount pending
          (address d) (contact d) (deliveryDate d) (deliveryTime d) now in
      (send (addDoc_orders orderData) >>
       if stored then
         setCart (λ _, []) >>
         setIsCheckoutOpen false >>
         setIsCartOpen false >>
         setToast (Some (mkToast "주문이 완료되었습니다!" success))
       else
         setToast (Some (mkToast "주문 처리에 실패했습니다" error))) s
  end.

(** ** Admin actions ([App], "Admin Actions") *)

(** [addMenu]: [stored] tells whether [addDoc] resolves. *)
Definition addMenu (stored : bool) (item : NewMenuItem.t) : AppState → AppState :=
  send (addDoc_menus item) >>
  if stored then setToast (Some (mkToast "메뉴가 추가되었습니다" success))
  else setToast (Some (mkToast "메뉴 추가 실패" error)).

(** [deleteMenu]: [confirmed] is the answer to [window.confirm], [deleted]
    tells whether [deleteDoc] resolves. *)
Definition deleteMenu (confirmed deleted : bool) (id : string) : AppState → AppState :=
  if negb confirmed then skip
  else
    send (deleteDoc_menus id) >>
    if deleted then setToast (Some (mkToast "메뉴가 삭제되었습니다" success))
    else setToast (Some (mkToast "메뉴 삭제 실패" error)).

Definition updateOrderStatus (updated : bool) (orderId : string) (status : OrderStatus)
    : AppState → AppState :=
  send (updateDoc_orders orderId status) >>
  if updated then setToast (Some (mkToast "주문 상태가 변경되었습니다" success))
  else setToast (Some (mkToast "상태 변경 실패" error)).

(** ** Admin console ([AdminDashboard]) *)

(** The [newMenu] state cell, a [Partial<MenuItem>].  The fields that the
    component always sets are plain; [imageUrl] and [calories] start out
    [undefined]. *)
Module NewMenuForm.
Record t := mk {
  name : string;
  description : string;
  price : JsNumber;
  category : Category;
  available : bool;
  imageUrl : option string;
  calories : option JsNumber
}.
End NewMenuForm.

Definition emptyNewMenu : NewMenuForm.t :=
  NewMenuForm.mk "" "" (JsFinite 0) regular true None None.

Inductive Tab := tab_menus | tab_orders.

Record AdminState := mkAdmin {
  activeTab : Tab;
  isAddModalOpen : bool;
  newMenu : NewMenuForm.t
}.

(** [handleAddSubmit]: [rnd] is the text of [Math.random()], [stored] the
    fate of the write started by [onAddMenu].  The handler changes the
    state of the dashboard and, through [onAddMenu], that of the
    application. *)
Definition handleAddSubmit (rnd : string) (stored : bool)
    (a : AdminState) (s : AppState) : AdminState * AppState :=
  if truthy_string (NewMenuForm.name (newMenu a)) && truthy_number (NewMenuForm.price (newMenu a))
  then
    let item :=
      NewMenuItem.mk (NewMenuForm.name (newMenu a))
        (NewMenuForm.description (newMenu a))
        (NewMenuForm.price (newMenu a))
        (NewMenuForm.category (newMenu a))
        (NewMenuForm.available (newMenu a))
        (or_string (NewMenuForm.imageUrl (newMenu a))
                   ("https://picsum.photos/400/300?random=" +:+ rnd))
        (NewMenuForm.calories (newMenu a)) in
    (mkAdmin (activeTab a) false emptyNewMenu, addMenu stored item s)
  else (a, s).

(** The short weekday name of the [ko-KR] locale, Sunday first. *)
Definition weekdayShort (w : Z) : string :=
  if decide (w = 0) then "일"
  else if decide (w = 1) then "월"
  else if decide (w = 2) then "화"
  else if decide (w = 3) then "수"
  else if decide (w = 4) then "목"
  else if decide (w = 5) then "금"
  else "토".

(** [new Date(t).toLocaleDateString('ko-KR', { weekday: 'short' })] *)
Definition toLocaleDateString_weekday (tz t : Z) : string :=
  weekdayShort (WeekDay (LocalTime tz t)).

(** [stats: Record<string, number>], with its keys in the order in which
    they were first written, which is the order of [Object.entries]. *)
Definition Stats := list (string * Z).

Fixpoint stats_get (k : string) (stats : Stats) : option Z :=
  match stats with
  | [] => None
  | (k', v) :: rest => if decide (k' = k) then Some v else stats_get k rest
  end.

Fixpoint stats_set (k : string) (v : Z) (stats : Stats) : Stats :=
  match stats with
  | [] => [(k, v)]
  | (k', v') :: rest =>
      if decide (k' = k) then (k, v) :: rest else (k', v') :: stats_set k v rest
  end.

(** [x || 0] for a number that may be [undefined]. *)
Definition or_zero (x : option Z) : Z :=
  match x with
  | Some v => if decide (v = 0) then 0 else v
  | None => 0
  end.

Record ChartDatum := mkDatum { datum_name : string; datum_value : Z }.

(** The body of the [forEach] in [chartData]. *)
Definition chartData_step (tz : Z) (stats : Stats) (o : Order.t) : Stats :=
  let date := toLocaleDateString_weekday tz (Order.createdAt o) in
  stats_set date (or_zero (stats_get date stats) + Order.totalAmount o) stats.

Definition chartData_stats (tz : Z) (orders : list Order.t) : Stats :=
  foldl (chartData_step tz) [] orders.

Definition chartData (tz : Z) (orders : list Order.t) : list ChartDatum :=
  (λ '(name, value), mkDatum name value) <$> chartData_stats tz orders.

(** ** Vocabulary of the properties *)

Definition cart_ids (c : Cart) : list string := CartItem.id <$> c.

(** At most one entry per menu item identifier, and no quantity below 1. *)
Definition cart_ok (c : Cart) : Prop :=
  NoDup (cart_ids c) ∧ Forall (λ i, 1 ≤ CartItem.quantity i) c.

(** The operations of the cart, as the views can trigger them.  The cart
    is cleared by [setCart([])], which the source calls from the logout
    handler and from a successful checkout; both handlers are steps too. *)
Inductive CartOp :=
  | op_add (item : MenuItem.t)
  | op_setQuantity (id : string) (delta : Z)
  | op_remove (id : string)
  | op_clear
  | op_logout
  | op_checkout (now : Z) (stored : bool) (login : LoginOutcome) (d : CheckoutForm).

Definition run_op (op : CartOp) : AppState → AppState :=
  match op with
  | op_add item => addToCart item
  | op_setQuantity id delta => updateQuantity id delta
  | op_remove id => removeFromCart id
  | op_clear => setCart (λ _, [])
  | op_logout => handleLogout
  | op_checkout now stored login d => handleCheckout now stored login d
  end.

Inductive cart_steps (s0 : AppState) : AppState → Prop :=
  | steps_none : cart_steps s0 s0
  | steps_more s op : cart_steps s0 s → cart_steps s0 (run_op op s).

(** [items.forEach(addToCart)]: one add after the other. *)
Definition add_all (items : list MenuItem.t) (s : AppState) : AppState :=
  foldl (λ s item, addToCart item s) s items.

(** The increment that [addToCart] applies to the entries of an item that
    is already in the cart. *)
Definition bump (item : MenuItem.t) (i : CartItem.t) : CartItem.t :=
  if decide (CartItem.id i = MenuItem.id item)
  then CartItem.with_quantity i (CartItem.quantity i + 1)
  else i.

(** The total of a cart in the words of the specification: the sum over
    the entries of price times quantity. *)
Fixpoint sum_price_quantity (c : Cart) : Z :=
  match c with
  | [] => 0
  | i :: rest => CartItem.price i * CartItem.quantity i + sum_price_quantity rest
  end.

(** Sample data. *)
Definition bulgogi : MenuItem.t :=
  MenuItem.mk "m1" "불고기 도시락" "" 8000 "" regular None true.

Definition galbi : MenuItem.t :=
  MenuItem.mk "m2" "갈비 도시락" "" 12000 "" premium (Some 850) true.

Definition customer : UserProfile.t :=
  UserProfile.mk "u1" (Some "kim@example.com") None None false.

(** The local calendar day on which an order was created, as a day number. *)
Definition creationDay (tz : Z) (o : Order.t) : Z :=
  Day (LocalTime tz (Order.createdAt o)).

(** The key under which [chartData] files an order. *)
Definition chartKey (tz : Z) (o : Order.t) : string :=
  toLocaleDateString_weekday tz (Order.createdAt o).

(** The orders filed under the key [k], and the sum of their totals. *)
Definition group (tz : Z) (k : string) (orders : list Order.t) : list Order.t :=
  filter (λ o, chartKey tz o = k) orders.

Fixpoint revenue (orders : list Order.t) : Z :=
  match orders with
  | [] => 0
  | o :: rest => Order.totalAmount o + revenue rest
  end.

(** An order of the sample customer created at time [t] with total [amount]. *)
Definition order_at (t amount : Z) : Order.t :=
  Order.mk "o" (OrderData.mk "u1" "kim@example.com" [] amount pending
                  "서울시 강남구 테헤란로 123" "010-1111-2222" "2024-05-10" lunch t).

(** Korea Standard Time, nine hours ahead of UTC. *)
Definition seoul : Z := 9 * 3600000.

(** Two orders at noon and at one o'clock on Wednesday 2024-05-01 in Seoul,
    one at noon the day after, and one at noon a week after. *)
Definition order_wed_noon : Order.t := order_at 1714532400000 10000.
Definition order_wed_one : Order.t := order_at 1714536000000 15000.
Definition order_thu_noon : Order.t := order_at 1714618800000 5000.
Definition order_next_wed_noon : Order.t := order_at 1715137200000 5000.

(** ** The rest of the views

    What follows models the parts of the views that decide what the user
    can trigger: which main view is rendered, which buttons exist and which
    of them are disabled. *)

Definition setMenus (items : list MenuItem.t) (s : AppState) : AppState :=
  mkApp (user s) (activePage s) items (orders s) (cart s) (isCartOpen s)
        (isCheckoutOpen s) (toast s) (isLoggingIn s) (requests s).

Definition setOrders (items : list Order.t) (s : AppState) : AppState :=
  mkApp (user s) (activePage s) (menus s) items (cart s) (isCartOpen s)
        (isCheckoutOpen s) (toast s) (isLoggingIn s) (requests s).

#[global] Instance Category_eq_dec : EqDecision Category.
Proof. solve_decision. Defined.

#[global] Instance Page_eq_dec : EqDecision Page.
Proof. solve_decision. Defined.

(** The [filter] state of [MenuList]: ['all'] or one of the categories. *)
Inductive MenuFilter := filter_all | filter_category (c : Category).

(** [filter === 'all' ? menus : menus.filter(m => m.category === filter)] *)
Definition filteredMenus (f : MenuFilter) (menus : list MenuItem.t) : list MenuItem.t :=
  match f with
  | filter_all => menus
  | filter_category c => filter (λ m, MenuItem.category m = c) menus
  end.

(** The number in the badge of the cart icon:
    [cart.reduce((acc, item) => acc + item.quantity, 0)]. *)
Definition cartCount (cart : Cart) : Z :=
  foldl (λ acc item, acc + CartItem.quantity item) 0 cart.

(** The four conditions under which [App] renders a main view. *)
Definition showHome (s : AppState) : bool := bool_decide (activePage s = home).

Definition showMenu (s : AppState) : bool := bool_decide (activePage s = menu).

Definition showAdminDashboard (s : AppState) : bool :=
  bool_decide (activePage s = admin) && isAdmin s.

Definition showAccessDenied (s : AppState) : bool :=
  bool_decide (activePage s = admin) && negb (isAdmin s).

(** The order feed: the effect subscribes when [user?.isAdmin] holds and
    its cleanup unsubscribes, so a snapshot of the orders is delivered to
    [setOrders] only while the flag is set. *)
Definition onOrdersSnapshot (items : list Order.t) (s : AppState) : AppState :=
  if isAdmin s then setOrders items s else s.

(** What can happen to the application: a callback of the identity
    provider or of the store, or a click on a control that the views
    render in the current state.  Rows and cards are named by their
    position in the list they are rendered from; the state of the checkout
    form and of the dashboard, local to their components, comes with the
    event. *)
Inductive Event :=
  | ev_authStateChanged (firebaseUser : option FirebaseUser.t)
  | ev_menusSnapshot (items : list MenuItem.t)
  | ev_ordersSnapshot (items : list Order.t)
  | ev_clickLogin (outcome : LoginOutcome)
  | ev_clickLogout
  | ev_clickNav (page : Page)
  | ev_clickAddToCart (card : nat)
  | ev_openCart
  | ev_closeCart
  | ev_clickMinus (row : nat)
  | ev_clickPlus (row : nat)
  | ev_clickRemove (row : nat)
  | ev_clickCheckout
  | ev_closeCheckout
  | ev_submitCheckout (now : Z) (stored : bool) (login : LoginOutcome) (form : CheckoutForm)
  | ev_submitAddMenu (rnd : string) (stored : bool) (dashboard : AdminState)
  | ev_clickDeleteMenu (confirmed deleted : bool) (row : nat)
  | ev_changeStatus (updated : bool) (row : nat) (status : OrderStatus)
  | ev_closeToast.

Definition handle (e : Event) (s : AppState) : AppState :=
  match e with
  | ev_authStateChanged firebaseUser => onAuthStateChanged firebaseUser s
  | ev_menusSnapshot items => setMenus items s
  | ev_ordersSnapshot items => onOrdersSnapshot items s
  | ev_clickLogin outcome =>
      (* the login button replaces the avatar when nobody is signed in *)
      match user s with
      | None => handleLogin outcome s
      | Some _ => s
      end
  | ev_clickLogout =>
      match user s with
      | Some _ => handleLogout s
      | None => s
      end
  | ev_clickNav page =>
      (* the link to the admin page is rendered for [user?.isAdmin] only *)
      match page with
      | admin => if isAdmin s then setActivePage admin s else s
      | _ => setActivePage page s
      end
  | ev_clickAddToCart card =>
      (* [MenuList], button [disabled={!item.available}] *)
      if showMenu s then
        match menus s !! card with
        | Some item => if MenuItem.available item then addToCart item s else s
        | None => s
        end
      else s
  | ev_openCart => setIsCartOpen true s
  | ev_closeCart => if isCartOpen s then setIsCartOpen false s else s
  | ev_clickMinus row =>
      (* [CartDrawer], button [disabled={item.quantity <= 1}] *)
      if isCartOpen s then
        match cart s !! row with
        | Some item =>
            if decide (CartItem.quantity item ≤ 1) then s
            else updateQuantity (CartItem.id item) (-1) s
        | None => s
        end
      else s
  | ev_clickPlus row =>
      if isCartOpen s then
        match cart s !! row with
        | Some item => updateQuantity (CartItem.id item) 1 s
        | None => s
        end
      else s
  | ev_clickRemove row =>
      if isCartOpen s then
        match cart s !! row with
        | Some item => removeFromCart (CartItem.id item) s
        | None => s
        end
      else s
  | ev_clickCheckout =>
      (* rendered under [cart.length > 0] *)
      if isCartOpen s then
        match cart s with
        | [] => s
        | _ :: _ => setIsCheckoutOpen true s
        end
      else s
  | ev_closeCheckout => if isCheckoutOpen s then setIsCheckoutOpen false s else s
  | ev_submitCheckout now stored login form =>
      if isCheckoutOpen s && negb (submitDisabled form)
      then handleCheckout now stored login form s else s
  | ev_submitAddMenu rnd stored dashboard =>
      if showAdminDashboard s && isAddModalOpen dashboard
      then (handleAddSubmit rnd stored dashboard s).2 else s
  | ev_clickDeleteMenu confirmed deleted row =>
      if showAdminDashboard s then
        match menus s !! row with
        | Some item => deleteMenu confirmed deleted (MenuItem.id item) s
        | None => s
        end
      else s
  | ev_changeStatus updated row status =>
      if showAdminDashboard s then
        match orders s !! row with
        | Some o => updateOrderStatus updated (Order.id o) status s
        | None => s
        end
      else s
  | ev_closeToast => setToast None s
  end.

Definition run (es : list Event) (s : AppState) : AppState :=
  foldl (λ s e, handle e s) s es.

(** An event that signs nobody in, or somebody who is not the administrator. *)
Definition customer_event (e : Event) : Prop :=
  match e with
  | ev_authStateChanged (Some fu) => FirebaseUser.email fu ≠ Some ADMIN_EMAIL
  | _ => True
  end.

(** The writes that only the dashboard issues. *)
Definition admin_write (r : Request) : bool :=
  match r with
  | addDoc_menus _ | deleteDoc_menus _ | updateDoc_orders _ _ => true
  | _ => false
  end.

Definition is_snapshot (e : Event) : bool :=
  match e with
  | ev_menusSnapshot _ | ev_ordersSnapshot _ => true
  | _ => false
  end.

Definition is_auth (e : Event) : bool :=
  match e with
  | ev_authStateChanged _ => true
  | _ => false
  end.

(** The events that can change the cart: its own buttons, a logout and a
    checkout. *)
Definition touches_cart (e : Event) : bool :=
  match e with
  | ev_clickAddToCart _ | ev_clickMinus _ | ev_clickPlus _ | ev_clickRemove _
  | ev_clickLogout | ev_submitCheckout _ _ _ _ => true
  | _ => false
  end.

(** What a write must satisfy to be called well formed: an order is
    pending, totals its own items, each of them once, in a quantity of at
    least 1 and of a dish that was on sale, and names a place, a contact, a
    date and an email; a menu item has a name, a price that is a number
    other than zero and an image. *)
Definition request_ok (r : Request) : Prop :=
  match r with
  | addDoc_orders od =>
      OrderData.status od = pending ∧
      OrderData.totalAmount od = sum_price_quantity (OrderData.items od) ∧
      cart_ok (OrderData.items od) ∧
      Forall (λ i, CartItem.available i = true) (OrderData.items od) ∧
      OrderData.address od ≠ "" ∧ OrderData.contact od ≠ "" ∧
      OrderData.deliveryDate od ≠ "" ∧ OrderData.userEmail od ≠ ""
  | addDoc_menus item =>
      NewMenuItem.name item ≠ "" ∧
      truthy_number (NewMenuItem.price item) = true ∧
      NewMenuItem.imageUrl item ≠ ""
  | _ => True
  end.

(** The groups of a table of statistics, as [chartData] returns them. *)
Definition statsData (stats : Stats) : list ChartDatum :=
  (λ '(name, value), mkDatum name value) <$> stats.

(** A state is sound when its cart is well formed and holds only dishes
    that were on sale, and every write sent so far is well formed. *)
Definition sound (s : AppState) : Prop :=
  cart_ok (cart s) ∧
  Forall (λ i, CartItem.available i = true) (cart s) ∧
  Forall request_ok (requests s).

(** The state of a session in which the administrator never signed in. *)
Definition customer_state (s : AppState) : Prop :=
  isAdmin s = false ∧ activePage s ≠ admin ∧ orders s = [] ∧
  Forall (λ r, admin_write r = false) (requests s).

(** The sum of the values of the groups of a chart. *)
Fixpoint chartSum (data : list ChartDatum) : Z :=
  match data with
  | [] => 0
  | d :: rest => datum_value d + chartSum rest
  end.


(** The first instant of the year 10000, in milliseconds. *)
Definition year10000 : Z := 253402300800000.

(** Sample data. *)
Definition admin_user : FirebaseUser.t :=
  FirebaseUser.mk "a1" (Some ADMIN_EMAIL) (Some "사장님") None.

Definition sold_out : MenuItem.t :=
  MenuItem.mk "m3" "제육 도시락" "" 9000 "" regular None false.

(** * Properties *)

(** ** The cart *)

Section cart_lemmas.
Implicit Types (c : Cart) (i : CartItem.t) (item : MenuItem.t) (k : string).

Lemma with_quantity_id i q : CartItem.id (CartItem.with_quantity i q) = CartItem.id i.
Proof. reflexivity. Qed.

Lemma with_quantity_twice i q q' :
  CartItem.with_quantity (CartItem.with_quantity i q) q' = CartItem.with_quantity i q'.
Proof. reflexivity. Qed.

Lemma find_present item c :
  MenuItem.id item ∈ cart_ids c →
  is_Some (list_find (λ i, CartItem.id i = MenuItem.id item) c).
Proof.
  intros Hin. apply list_elem_of_fmap in Hin as (i & Hi & Hic).
  destruct (list_find (λ i, CartItem.id i = MenuItem.id item) c) eqn:E; [eauto|].
  apply list_find_None in E. rewrite Forall_forall in E.
  exfalso. apply (E i Hic). done.
Qed.

Lemma find_absent item c :
  MenuItem.id item ∉ cart_ids c →
  list_find (λ i, CartItem.id i = MenuItem.id item) c = None.
Proof.
  intros Hnin. apply list_find_None, Forall_forall. intros i Hi Heq.
  apply Hnin. rewrite <- Heq. unfold cart_ids. apply list_elem_of_fmap. eauto.
Qed.

Lemma add_present item c :
  MenuItem.id item ∈ cart_ids c →
  addToCart_update item c =
    (λ i, if decide (CartItem.id i = MenuItem.id item)
          then CartItem.with_quantity i (CartItem.quantity i + 1) else i) <$> c.
Proof.
  intros Hin. unfold addToCart_update.
  destruct (find_present item c Hin) as [x ->]. reflexivity.
Qed.

Lemma add_absent item c :
  MenuItem.id item ∉ cart_ids c →
  addToCart_update item c = c ++ [CartItem.of_menu item 1].
Proof. intros Hnin. unfold addToCart_update. by rewrite find_absent. Qed.

(** A map that leaves identifiers alone leaves the list of identifiers alone. *)
Lemma ids_fmap_same (f : CartItem.t → CartItem.t) c :
  (∀ i, CartItem.id (f i) = CartItem.id i) → cart_ids (f <$> c) = cart_ids c.
Proof.
  intros Hf. unfold cart_ids. rewrite <- list_fmap_compose.
  apply list_fmap_ext. intros _ i _. apply Hf.
Qed.

Lemma add_ids item c :
  cart_ids (addToCart_update item c) =
    if decide (MenuItem.id item ∈ cart_ids c) then cart_ids c
    else cart_ids c ++ [MenuItem.id item].
Proof.
  case_decide as Hin.
  - rewrite add_present by done. apply ids_fmap_same.
    intros i. by case_decide.
  - rewrite add_absent by done. unfold cart_ids. by rewrite fmap_app.
Qed.

Lemma update_ids k delta c : cart_ids (updateQuantity_update k delta c) = cart_ids c.
Proof. apply ids_fmap_same. intros i. by case_decide. Qed.

Lemma remove_ids k c :
  cart_ids (removeFromCart_update k c) = filter (λ x, x ≠ k) (cart_ids c).
Proof.
  unfold removeFromCart_update, cart_ids.
  induction c as [|i c IH]; [done|].
  rewrite fmap_cons. destruct (decide (CartItem.id i = k)) as [Heq|Hne].
  - rewrite !filter_cons_False by (intros H; by apply H). exact IH.
  - rewrite !filter_cons_True by done. rewrite fmap_cons. by f_equal.
Qed.

Lemma update_floor k delta c i :
  i ∈ updateQuantity_update k delta c → CartItem.id i = k → 1 ≤ CartItem.quantity i.
Proof.
  unfold updateQuantity_update. intros Hin Hid.
  apply list_elem_of_fmap in Hin as (j & -> & _).
  case_decide as Hj; [cbn; lia|]. by destruct Hj.
Qed.

Lemma update_absent k delta c :
  k ∉ cart_ids c → updateQuantity_update k delta c = c.
Proof.
  unfold updateQuantity_update, cart_ids. intros Hnin.
  induction c as [|i c IH]; [done|].
  rewrite fmap_cons in *. apply not_elem_of_cons in Hnin as [Hne Hnin].
  case_decide as Hi; [by destruct Hne|]. f_equal. by apply IH.
Qed.

Lemma remove_absent k c :
  k ∉ cart_ids c → removeFromCart_update k c = c.
Proof.
  unfold removeFromCart_update, cart_ids. intros Hnin.
  induction c as [|i c IH]; [done|].
  rewrite fmap_cons in Hnin. apply not_elem_of_cons in Hnin as [Hne Hnin].
  rewrite filter_cons. case_decide as Hi; [|by destruct Hi].
  f_equal. by apply IH.
Qed.

Lemma add_ok item c : cart_ok c → cart_ok (addToCart_update item c).
Proof.
  intros [Hnd Hq]. split.
  - rewrite add_ids. case_decide as Hin; [done|].
    apply NoDup_app. split_and!; [done| |apply NoDup_singleton].
    intros x Hx Hx'. apply list_elem_of_singleton in Hx'. by subst.
  - destruct (decide (MenuItem.id item ∈ cart_ids c)) as [Hin|Hnin].
    + rewrite add_present by done. apply Forall_fmap.
      eapply Forall_impl; [exact Hq|]. intros i Hi. cbn in *.
      case_decide; cbn; lia.
    + rewrite add_absent by done. apply Forall_app. split; [done|].
      apply Forall_singleton. cbn. lia.
Qed.

Lemma update_ok k delta c : cart_ok c → cart_ok (updateQuantity_update k delta c).
Proof.
  intros [Hnd Hq]. split; [by rewrite update_ids|].
  apply Forall_fmap. eapply Forall_impl; [exact Hq|].
  intros i Hi. cbn in *. case_decide; cbn; lia.
Qed.

Lemma remove_ok k c : cart_ok c → cart_ok (removeFromCart_update k c).
Proof.
  intros [Hnd Hq]. split.
  - rewrite remove_ids. by apply NoDup_filter.
  - rewrite Forall_forall in *. intros i Hi.
    apply list_elem_of_filter in Hi as [_ Hi]. by apply Hq.
Qed.

Lemma empty_ok : cart_ok [].
Proof. split; [apply NoDup_nil_2 | apply Forall_nil_2]. Qed.
End cart_lemmas.

Lemma setCart_same (s : AppState) : setCart (λ _, cart s) s = s.
Proof. by destruct s. Qed.

Lemma handleLogin_cart (login : LoginOutcome) (s : AppState) :
  cart (handleLogin login s) = cart s.
Proof. unfold handleLogin. destruct (isLoggingIn s), login; reflexivity. Qed.

Lemma handleCheckout_cart (now : Z) (stored : bool) (login : LoginOutcome)
    (d : CheckoutForm) (s : AppState) :
  cart (handleCheckout now stored login d s) = [] ∨
  cart (handleCheckout now stored login d s) = cart s.
Proof.
  unfold handleCheckout. destruct (user s) as [u|].
  - destruct stored; [by left | by right].
  - right. unfold andThen. by rewrite handleLogin_cart.
Qed.

Lemma run_op_ok (op : CartOp) (s : AppState) :
  cart_ok (cart s) → cart_ok (cart (run_op op s)).
Proof.
  destruct op; cbn [run_op]; intros Hok.
  - by apply add_ok.
  - by apply update_ok.
  - by apply remove_ok.
  - apply empty_ok.
  - apply empty_ok.
  - destruct (handleCheckout_cart now stored login d s) as [-> | ->];
      [apply empty_ok | done].
Qed.

(** C5. Every cart reached from an empty cart by add, setQuantity, remove
    and clear (alone, or as part of a logout or of a checkout) has at most
    one entry per menu item identifier and no quantity below 1.  Moreover,
    from any state, setQuantity leaves the
    entries it touches with a quantity of at least 1 whatever the delta,
    and setQuantity and remove on an identifier that is not in the cart
    change nothing. *)
Theorem cart_invariant :
  (∀ s0 s : AppState, cart s0 = [] → cart_steps s0 s → cart_ok (cart s)) ∧
  (∀ (s : AppState) (id : string) (delta : Z) (i : CartItem.t),
     i ∈ cart (updateQuantity id delta s) → CartItem.id i = id →
     1 ≤ CartItem.quantity i) ∧
  (∀ (s : AppState) (id : string) (delta : Z),
     id ∉ cart_ids (cart s) →
     updateQuantity id delta s = s ∧ removeFromCart id s = s).
Proof.
  split_and!.
  - intros s0 s H0 Hsteps. induction Hsteps as [|s op _ IH].
    + rewrite H0. apply empty_ok.
    + by apply run_op_ok.
  - intros s id delta i. apply update_floor.
  - intros s id delta Hnin. unfold updateQuantity, removeFromCart, setCart.
    rewrite update_absent, remove_absent by done. by destruct s.
Qed.

Lemma cart_invariant_witness :
  cart_ok (cart ((setCart (λ _, []) >> addToCart bulgogi >> addToCart galbi >>
                  addToCart bulgogi >> updateQuantity "m1" (-5) >>
                  removeFromCart "m2") initialApp)).
Proof.
  apply (proj1 cart_invariant initialApp); [reflexivity|].
  apply (steps_more _ _ (op_remove "m2")).
  apply (steps_more _ _ (op_setQuantity "m1" (-5))).
  apply (steps_more _ _ (op_add bulgogi)).
  apply (steps_more _ _ (op_add galbi)).
  apply (steps_more _ _ (op_add bulgogi)).
  apply (steps_more _ _ op_clear).
  apply steps_none.
Defined.

Section add_lemmas.
Implicit Types (c : Cart) (i e : CartItem.t) (item : MenuItem.t) (k : string).

Lemma filter_absent k c :
  k ∉ cart_ids c → filter (λ i, CartItem.id i = k) c = [].
Proof.
  intros Hnin. induction c as [|i c IH]; [done|].
  unfold cart_ids in Hnin. rewrite fmap_cons in Hnin.
  apply not_elem_of_cons in Hnin as [Hne Hnin].
  rewrite filter_cons_False by (intros H; by apply Hne). by apply IH.
Qed.

Lemma filter_fmap_ids (f : CartItem.t → CartItem.t) k c :
  (∀ i, CartItem.id (f i) = CartItem.id i) →
  filter (λ i, CartItem.id i = k) (f <$> c) = f <$> filter (λ i, CartItem.id i = k) c.
Proof.
  intros Hf. induction c as [|i c IH]; [done|].
  rewrite fmap_cons. destruct (decide (CartItem.id i = k)) as [Heq|Hne].
  - rewrite !filter_cons_True by (by rewrite ?Hf). rewrite fmap_cons. by f_equal.
  - rewrite !filter_cons_False by (by rewrite ?Hf). exact IH.
Qed.

Lemma bump_id item i : CartItem.id (bump item i) = CartItem.id i.
Proof. unfold bump. by case_decide. Qed.

Lemma filter_add_absent item c :
  MenuItem.id item ∉ cart_ids c →
  filter (λ i, CartItem.id i = MenuItem.id item) (addToCart_update item c)
  = [CartItem.of_menu item 1].
Proof.
  intros Hnin. rewrite add_absent by done.
  rewrite filter_app, filter_absent by done.
  by rewrite filter_cons_True.
Qed.

Lemma filter_add_present item c e :
  filter (λ i, CartItem.id i = MenuItem.id item) c = [e] →
  filter (λ i, CartItem.id i = MenuItem.id item) (addToCart_update item c)
  = [CartItem.with_quantity e (CartItem.quantity e + 1)].
Proof.
  intros He.
  assert (e ∈ filter (λ i, CartItem.id i = MenuItem.id item) c) as Hin
    by (rewrite He; apply list_elem_of_here).
  apply list_elem_of_filter in Hin as [Hid Hin].
  rewrite add_present.
  - fold (bump item). rewrite filter_fmap_ids by apply bump_id.
    rewrite He. cbn. unfold bump. by rewrite decide_True.
  - rewrite <- Hid. unfold cart_ids. apply list_elem_of_fmap. eauto.
Qed.

Lemma with_quantity_same e : CartItem.with_quantity e (CartItem.quantity e) = e.
Proof. by destruct e. Qed.

Lemma add_all_present (rest : list MenuItem.t) k :
  Forall (λ item, MenuItem.id item = k) rest →
  ∀ (s : AppState) e,
    filter (λ i, CartItem.id i = k) (cart s) = [e] →
    filter (λ i, CartItem.id i = k) (cart (add_all rest s))
    = [CartItem.with_quantity e (CartItem.quantity e + Z.of_nat (length rest))].
Proof.
  induction 1 as [|item rest Hid _ IH]; intros s e He.
  - cbn. rewrite Z.add_0_r, with_quantity_same. exact He.
  - subst k. cbn [add_all foldl]. fold (add_all rest (addToCart item s)).
    rewrite (IH _ (CartItem.with_quantity e (CartItem.quantity e + 1))).
    + rewrite with_quantity_twice. do 2 f_equal. cbn [CartItem.quantity CartItem.with_quantity length]. lia.
    + cbn. by apply filter_add_present.
Qed.
End add_lemmas.

(** C6. Adding [n ≥ 1] menu items that all carry the identifier [k] to a
    cart that has no entry for [k] leaves exactly one entry for [k], a
    snapshot of the first item added, with quantity [n].  An add of an item
    whose identifier is already in the cart increments the quantity of its
    entry by 1 and touches nothing else, and every add sets a success
    notification that starts with the name of the item. *)
Theorem add_to_cart_counts :
  (∀ (items : list MenuItem.t) (k : string) (s : AppState),
     items ≠ [] →
     Forall (λ item, MenuItem.id item = k) items →
     k ∉ cart_ids (cart s) →
     ∃ first, head items = Some first ∧
       filter (λ i, CartItem.id i = k) (cart (add_all items s))
       = [CartItem.of_menu first (Z.of_nat (length items))]) ∧
  (∀ (item : MenuItem.t) (s : AppState),
     MenuItem.id item ∈ cart_ids (cart s) →
     cart (addToCart item s) = bump item <$> cart s) ∧
  (∀ (item : MenuItem.t) (s : AppState),
     toast (addToCart item s)
     = Some (mkToast (MenuItem.name item +:+ " 장바구니에 담김") success)).
Proof.
  split_and!.
  - intros [|first rest] k s Hne Hall Hnin; [done|].
    exists first. split; [done|].
    apply Forall_cons in Hall as [Hid Hall]. subst k.
    cbn [add_all foldl]. fold (add_all rest (addToCart first s)).
    rewrite (add_all_present rest _ Hall _ (CartItem.of_menu first 1)).
    + cbn [length]. unfold CartItem.with_quantity, CartItem.of_menu. cbn.
      do 2 f_equal. lia.
    + cbn. by apply filter_add_absent.
  - intros item s Hin. cbn. by apply add_present.
  - reflexivity.
Qed.

Lemma add_to_cart_counts_witness :
  ∃ first, head [bulgogi; bulgogi; bulgogi] = Some first ∧
    filter (λ i, CartItem.id i = "m1")
      (cart (add_all [bulgogi; bulgogi; bulgogi] (addToCart galbi initialApp)))
    = [CartItem.of_menu first (Z.of_nat (length [bulgogi; bulgogi; bulgogi]))].
Proof.
  apply (proj1 add_to_cart_counts [bulgogi; bulgogi; bulgogi] "m1").
  - discriminate.
  - repeat constructor.
  - apply (bool_decide_unpack _). reflexivity.
Defined.

(** ** Totals *)

Lemma foldl_total (c : Cart) (acc : Z) :
  foldl (λ sum item, sum + CartItem.price item * CartItem.quantity item) acc c
  = acc + sum_price_quantity c.
Proof.
  revert acc. induction c as [|i c IH]; intros acc; cbn [foldl sum_price_quantity].
  - lia.
  - rewrite IH. lia.
Qed.

Lemma cartTotal_sum (c : Cart) : cartTotal c = sum_price_quantity c.
Proof. unfold cartTotal. rewrite foldl_total. lia. Qed.

(** C7. The total of a cart is the sum over its entries of price times
    quantity (28000 for two at 8000 and one at 12000), and a checkout by a
    signed-in user sends to the store exactly one order record, whose
    [totalAmount] is that sum over the cart at the time of the submission
    and whose [items] are that cart. *)
Theorem total_is_sum_and_is_persisted :
  (∀ c : Cart, cartTotal c = sum_price_quantity c) ∧
  cartTotal [CartItem.of_menu bulgogi 2; CartItem.of_menu galbi 1] = 28000 ∧
  (∀ (now : Z) (stored : bool) (login : LoginOutcome) (d : CheckoutForm)
     (s : AppState) (u : UserProfile.t),
     user s = Some u →
     ∃ orderData,
       requests (handleCheckout now stored login d s)
       = requests s ++ [addDoc_orders orderData] ∧
       OrderData.totalAmount orderData = sum_price_quantity (cart s) ∧
       OrderData.items orderData = cart s).
Proof.
  split_and!.
  - apply cartTotal_sum.
  - reflexivity.
  - intros now stored login d s u Hu. unfold handleCheckout. rewrite Hu.
    eexists. split_and!.
    + destruct stored; reflexivity.
    + cbn. apply cartTotal_sum.
    + reflexivity.
Qed.

Lemma total_is_sum_and_is_persisted_witness :
  ∃ orderData,
    requests (handleCheckout 1714518000000 true LoginResolved
                (mkForm "서울시 강남구 테헤란로 123" "010-1111-2222" "2024-05-01" lunch)
                (add_all [bulgogi; bulgogi; galbi] (setUser (Some customer) initialApp)))
    = [addDoc_orders orderData] ∧
    OrderData.totalAmount orderData = 28000 ∧
    OrderData.items orderData = [CartItem.of_menu bulgogi 2; CartItem.of_menu galbi 1].
Proof.
  exact (proj2 (proj2 total_is_sum_and_is_persisted) 1714518000000 true LoginResolved
           (mkForm "서울시 강남구 테헤란로 123" "010-1111-2222" "2024-05-01" lunch)
           (add_all [bulgogi; bulgogi; galbi] (setUser (Some customer) initialApp))
           customer eq_refl).
Defined.

(** ** The checkout form *)

Lemma truthy_string_empty (x : string) : truthy_string x = false ↔ x = "".
Proof. destruct x; cbn; split; congruence. Qed.

(** C8. The submit button of the checkout form is disabled exactly when
    the address, the contact or the delivery date is the empty string; with
    an empty address, contact 010-1111-2222 and date 2024-05-01 it is
    disabled. *)
Theorem submit_disabled_iff_empty_field :
  (∀ f : CheckoutForm,
     submitDisabled f = true ↔ address f = "" ∨ contact f = "" ∨ deliveryDate f = "") ∧
  submitDisabled (mkForm "" "010-1111-2222" "2024-05-01" lunch) = true.
Proof.
  split; [|reflexivity].
  intros f. unfold submitDisabled.
  rewrite !orb_true_iff, !negb_true_iff, !truthy_string_empty. tauto.
Qed.

(** ** Checkout outcome *)

(** C3. A checkout by a signed-in user whose order the store accepts
    leaves the cart empty, the checkout modal and the cart drawer closed
    and a success notification; one whose write fails leaves the cart and
    the checkout modal as they were (so the modal, open for the submission,
    stays open) and an error notification. *)
Theorem checkout_outcome (now : Z) (login : LoginOutcome) (d : CheckoutForm)
    (s : AppState) (u : UserProfile.t) :
  user s = Some u →
  isCheckoutOpen s = true →
  (let s' := handleCheckout now true login d s in
   cart s' = [] ∧ isCheckoutOpen s' = false ∧ isCartOpen s' = false ∧
   toast s' = Some (mkToast "주문이 완료되었습니다!" success)) ∧
  (let s' := handleCheckout now false login d s in
   cart s' = cart s ∧ isCheckoutOpen s' = true ∧ isCartOpen s' = isCartOpen s ∧
   toast s' = Some (mkToast "주문 처리에 실패했습니다" error)).
Proof.
  intros Hu Hopen. unfold handleCheckout. rewrite Hu. cbn.
  split; split_and!; eauto.
Qed.

Lemma checkout_outcome_witness :
  let s := setIsCartOpen true (setIsCheckoutOpen true
             (add_all [bulgogi; galbi] (setUser (Some customer) initialApp))) in
  let d := mkForm "서울시 강남구 테헤란로 123" "010-1111-2222" "2024-05-01" dinner in
  (let s' := handleCheckout 1714518000000 true LoginResolved d s in
   cart s' = [] ∧ isCheckoutOpen s' = false ∧ isCartOpen s' = false ∧
   toast s' = Some (mkToast "주문이 완료되었습니다!" success)) ∧
  (let s' := handleCheckout 1714518000000 false LoginResolved d s in
   cart s' = cart s ∧ isCheckoutOpen s' = true ∧ isCartOpen s' = isCartOpen s ∧
   toast s' = Some (mkToast "주문 처리에 실패했습니다" error)).
Proof.
  intros s d.
  exact (checkout_outcome 1714518000000 LoginResolved d s customer eq_refl eq_refl).
Defined.

(** ** The administrator flag *)

(** C4. After the authentication listener has run, the administrator flag
    is set exactly when there is a signed-in identity whose email is,
    character for character, the configured administrator address.  So the
    absence of an identity, an identity without email and an identity whose
    email differs from the address only by the case of a letter all leave
    the flag unset, as does the state before any sign-in. *)
Theorem isAdmin_iff_admin_email :
  (∀ (firebaseUser : option FirebaseUser.t) (s : AppState),
     isAdmin (onAuthStateChanged firebaseUser s) = true ↔
     ∃ fu, firebaseUser = Some fu ∧ FirebaseUser.email fu = Some ADMIN_EMAIL) ∧
  (∀ s : AppState, isAdmin (onAuthStateChanged None s) = false) ∧
  (∀ (uid : string) (displayName photoURL : option string) (s : AppState),
     isAdmin (onAuthStateChanged
                (Some (FirebaseUser.mk uid None displayName photoURL)) s) = false) ∧
  isAdmin (onAuthStateChanged
             (Some (FirebaseUser.mk "u2" (Some "Acehwan69@gmail.com") None None))
             initialApp) = false ∧
  isAdmin initialApp = false.
Proof.
  split_and!; try reflexivity.
  intros firebaseUser s. destruct firebaseUser as [fu|]; cbn.
  - unfold email_is_admin. destruct (FirebaseUser.email fu) as [e|] eqn:He.
    + rewrite bool_decide_eq_true. split.
      * intros ->. eauto.
      * intros (fu' & [= <-] & Hfu). congruence.
    + split; [done|]. intros (fu' & [= <-] & Hfu). congruence.
  - split; [done|]. by intros (fu' & ? & _).
Qed.

(** ** Deleting a menu item *)

(** C9. A deletion that the user does not confirm changes nothing: no call
    goes to the store and no notification is set.  A confirmed deletion
    sends exactly one delete call, for the identifier given. *)
Theorem delete_needs_confirmation :
  (∀ (deleted : bool) (id : string) (s : AppState),
     deleteMenu false deleted id s = s) ∧
  (∀ (deleted : bool) (id : string) (s : AppState),
     requests (deleteMenu true deleted id s) = requests s ++ [deleteDoc_menus id]).
Proof.
  split; intros deleted id s; [reflexivity|].
  by destruct deleted.
Qed.

(** ** The add-menu form *)

Lemma truthy_number_spec (n : JsNumber) :
  truthy_number n = true ↔ ∃ q, n = JsFinite q ∧ ¬ (q == 0)%Q.
Proof.
  destruct n as [|q]; cbn.
  - split; [done|]. by intros (q & ? & _).
  - rewrite negb_true_iff. split.
    + intros Hq. exists q. split; [done|]. intros Heq.
      apply Qeq_bool_iff in Heq. congruence.
    + intros (q' & [= <-] & Hne). destruct (Qeq_bool q 0) eqn:E; [|done].
      destruct Hne. by apply Qeq_bool_iff.
Qed.

Lemma truthy_string_nonempty (x : string) : truthy_string x = true ↔ x ≠ "".
Proof. destruct x; cbn; split; congruence. Qed.

Lemma app_singleton_neq {A} (l : list A) (x : A) : l ++ [x] ≠ l.
Proof.
  intros H. apply (f_equal length) in H. rewrite length_app in H. cbn in H. lia.
Qed.

(** C10. Submitting the add-menu form with an empty name, or with a price
    that is [NaN] or zero, changes neither the dashboard (the modal and its
    fields stay as they are) nor the application (no call to the store, no
    notification).  With a name that is not empty and a price that is a
    number other than zero, exactly one insert is sent, carrying that name
    and that price, the modal closes and the fields are reset.  So an
    insert is sent exactly in the second case. *)
Theorem add_menu_submit_guard (rnd : string) (stored : bool) (a : AdminState) (s : AppState) :
  let name := NewMenuForm.name (newMenu a) in
  let price := NewMenuForm.price (newMenu a) in
  let valid := name ≠ "" ∧ ∃ q, price = JsFinite q ∧ ¬ (q == 0)%Q in
  let result := handleAddSubmit rnd stored a s in
  (name = "" ∨ price = JsNaN ∨ (∃ q, price = JsFinite q ∧ (q == 0)%Q) → result = (a, s)) ∧
  (valid →
     ∃ item, requests (result.2) = requests s ++ [addDoc_menus item] ∧
       NewMenuItem.name item = name ∧ NewMenuItem.price item = price ∧
       isAddModalOpen (result.1) = false ∧ newMenu (result.1) = emptyNewMenu) ∧
  (requests (result.2) ≠ requests s ↔ valid).
Proof.
  intros name price valid result. subst result. unfold handleAddSubmit.
  fold name price.
  destruct (truthy_string name && truthy_number price) eqn:E.
  - apply andb_true_iff in E as [Hn Hp].
    apply truthy_string_nonempty in Hn. apply truthy_number_spec in Hp.
    assert valid as Hv by done.
    split_and!.
    + intros [Hempty | [Hnan | (q & Hq & Hz)]].
      * done.
      * destruct Hp as (q & Hq & _). congruence.
      * destruct Hp as (q' & Hq' & Hnz). rewrite Hq in Hq'. by injection Hq' as <-.
    + intros _. eexists. split.
      * cbn. destruct stored; reflexivity.
      * by split_and!.
    + split; [done|]. intros _. cbn.
      destruct stored; cbn; apply app_singleton_neq.
  - split_and!.
    + done.
    + intros [Hn Hp]. apply truthy_string_nonempty in Hn.
      apply truthy_number_spec in Hp. rewrite Hn, Hp in E. done.
    + cbn. split; [done|]. intros [Hn Hp]. apply truthy_string_nonempty in Hn.
      apply truthy_number_spec in Hp. rewrite Hn, Hp in E. done.
Qed.

Lemma add_menu_submit_guard_witness :
  let a := mkAdmin tab_menus true
             (NewMenuForm.mk "김치찌개 도시락" "" JsNaN regular true None None) in
  handleAddSubmit "0.5" true a initialApp = (a, initialApp).
Proof.
  intros a.
  apply (proj1 (add_menu_submit_guard "0.5" true a initialApp)).
  right. left. reflexivity.
Defined.

(** ** The default delivery date *)

(** C2, at 08:00 on 2024-05-01 in Korea (23:00 on 2024-04-30 in UTC).
    Opening the checkout modal puts 2024-05-01 in the delivery date field,
    which is the local date of that day and not of the next, 2024-05-02;
    and the minimum of the date input is 2024-04-30, the day before the
    local date. *)
Theorem default_delivery_date_early_morning :
  let tz := 9 * 3600000 in
  let now := 1714518000000 in
  toISOString now = "2024-04-30T23:00:00.000Z" ∧
  localCalendarDate tz now 0 = "2024-05-01" ∧
  localCalendarDate tz now 1 = "2024-05-02" ∧
  deliveryDate (defaultDateEffect tz now true initialCheckoutForm) = "2024-05-01" ∧
  minDeliveryDate now = "2024-04-30".
Proof. vm_compute. by split_and!. Qed.

(** ** What the default date is in general *)

Section iso_lemmas.
Implicit Types (s rest : string) (c a : ascii).

Lemma append_cons a s rest : String a s +:+ rest = String a (s +:+ rest).
Proof. reflexivity. Qed.

Lemma append_nil_l s : "" +:+ s = s.
Proof. reflexivity. Qed.

Lemma append_assoc s1 s2 s3 : (s1 +:+ s2) +:+ s3 = s1 +:+ (s2 +:+ s3).
Proof.
  induction s1 as [|a s1 IH]; [done|].
  rewrite !append_cons. by rewrite IH.
Qed.

Lemma split_head_cons_ne c a s : a ≠ c → split_head c (String a s) = String a (split_head c s).
Proof. intros Hne. cbn. by rewrite decide_False. Qed.

Lemma split_head_cons_eq c s : split_head c (String c s) = "".
Proof. cbn. by rewrite decide_True. Qed.

Lemma digit_not_T (n : Z) : ascii_of_nat (48 + Z.to_nat (n `mod` 10)) ≠ "T"%char.
Proof.
  assert (0 ≤ n `mod` 10 < 10) as H by (by apply Z.mod_pos_bound).
  assert (Z.to_nat (n `mod` 10) < 10)%nat as Hk by lia.
  revert Hk. generalize (Z.to_nat (n `mod` 10)) as k. intros k Hk.
  do 10 (destruct k as [|k]; [discriminate|]). lia.
Qed.

Lemma split_head_digits (w : nat) :
  ∀ (n : Z) rest,
    split_head "T" (digits w n +:+ rest) = digits w n +:+ split_head "T" rest.
Proof.
  induction w as [|w IH]; intros n rest; [done|].
  cbn [digits]. rewrite !append_assoc, !append_cons, IH. f_equal.
  apply (split_head_cons_ne _ _ rest), digit_not_T.
Qed.

Lemma split_head_isoYear (y : Z) rest :
  split_head "T" (isoYear y +:+ rest) = isoYear y +:+ split_head "T" rest.
Proof.
  unfold isoYear. repeat case_decide.
  - apply split_head_digits.
  - rewrite !append_cons, !append_nil_l, split_head_cons_ne by discriminate.
    f_equal. apply split_head_digits.
  - rewrite !append_cons, !append_nil_l, split_head_cons_ne by discriminate.
    f_equal. apply split_head_digits.
Qed.

(** The date part of an ISO string is the UTC calendar date. *)
Lemma date_of_toISOString (t : Z) :
  split_head "T" (toISOString t) = localCalendarDate 0 t 0.
Proof.
  unfold toISOString, localCalendarDate, LocalTime.
  rewrite !Z.add_0_r. destruct (civil_from_days (Day t)) as [[y m] d].
  rewrite split_head_isoYear. f_equal.
  rewrite append_cons, append_nil_l, split_head_cons_ne by discriminate. f_equal.
  rewrite split_head_digits. f_equal.
  rewrite append_cons, append_nil_l, split_head_cons_ne by discriminate. f_equal.
  rewrite split_head_digits.
  rewrite append_cons, split_head_cons_eq. reflexivity.
Qed.
End iso_lemmas.

Section calendar_lemmas.
Implicit Types (z doe doy y m d t tz : Z).

Lemma year_of_era_bound doe :
  0 ≤ doe < 146097 →
  let yoe := (doe - doe `div` 1460 + doe `div` 36524 - doe `div` 146096) `div` 365 in
  0 ≤ yoe < 400 ∧ 0 ≤ doe - (365 * yoe + yoe `div` 4 - yoe `div` 100) < 366.
Proof. intros H. cbv zeta. Z.div_mod_to_equations. lia. Qed.

Lemma month_of_year_bound doy :
  0 ≤ doy < 366 →
  let mp := (5 * doy + 2) `div` 153 in
  0 ≤ mp < 12 ∧ 1 ≤ doy - (153 * mp + 2) `div` 5 + 1 ≤ 31.
Proof. intros H. cbv zeta. Z.div_mod_to_equations. lia. Qed.

(** [MakeDay] counts days of the month linearly. *)
Lemma days_from_civil_shift y m d n :
  days_from_civil y m (d + n) = days_from_civil y m d + n.
Proof. unfold days_from_civil. cbv zeta. lia. Qed.

(** The day number of the date of a day number is that day number. *)
Lemma days_from_civil_from_days z :
  let '(y, m, d) := civil_from_days z in days_from_civil y m d = z.
Proof.
  unfold civil_from_days. cbv zeta.
  set (z' := z + 719468).
  set (era := z' `div` 146097).
  set (doe := z' - era * 146097).
  assert (0 ≤ doe < 146097) as Hdoe
    by (subst doe era; Z.div_mod_to_equations; lia).
  pose proof (year_of_era_bound doe Hdoe) as Hy. cbv zeta in Hy.
  set (yoe := (doe - doe `div` 1460 + doe `div` 36524 - doe `div` 146096) `div` 365) in *.
  destruct Hy as [Hyoe Hdoy].
  set (doy := doe - (365 * yoe + yoe `div` 4 - yoe `div` 100)) in *.
  pose proof (month_of_year_bound doy Hdoy) as Hm. cbv zeta in Hm.
  set (mp := (5 * doy + 2) `div` 153) in *.
  destruct Hm as [Hmp Hd].
  unfold days_from_civil. cbv zeta.
  assert (mp = (5 * doy + 2) `div` 153) as Emp by reflexivity.
  assert (doy = doe - (365 * yoe + yoe `div` 4 - yoe `div` 100)) as Edoy by reflexivity.
  assert (doe = z' - era * 146097) as Edoe by reflexivity.
  assert (z' = z + 719468) as Ez by reflexivity.
  clearbody mp doy yoe doe era z'.
  repeat case_decide; try lia.
  all: Z.div_mod_to_equations; lia.
Qed.

(** [d.setDate(d.getDate() + 1)] moves a time value one day ahead,
    whatever the time zone. *)
Lemma setDate_next_day tz t : setDate tz t (getDate tz t + 1) = t + msPerDay.
Proof.
  unfold setDate, getDate.
  pose proof (days_from_civil_from_days (Day (LocalTime tz t))) as Hrt.
  destruct (civil_from_days (Day (LocalTime tz t))) as [[y m] d].
  rewrite days_from_civil_shift, Hrt.
  unfold UTC, Day, TimeWithinDay, LocalTime, msPerDay.
  Z.div_mod_to_equations. lia.
Qed.

Lemma Day_next t : Day (t + msPerDay) = Day t + 1.
Proof. unfold Day, msPerDay. Z.div_mod_to_equations. lia. Qed.
End calendar_lemmas.

(** Opening the checkout modal puts in the delivery date field the UTC
    calendar date of the instant one day ahead, and the minimum of the date
    input is the UTC calendar date of the instant of rendering. *)
Lemma default_delivery_date_is_UTC_date (tz now : Z) (f : CheckoutForm) :
  defaultDateEffect tz now true f = setDeliveryDate (localCalendarDate 0 now 1) f ∧
  minDeliveryDate now = localCalendarDate 0 now 0.
Proof.
  split; [|apply date_of_toISOString].
  unfold defaultDateEffect. rewrite setDate_next_day, date_of_toISOString.
  unfold localCalendarDate, LocalTime. by rewrite !Z.add_0_r, Day_next.
Qed.


(** ** Revenue by weekday *)

Section chart_lemmas.
Implicit Types (stats : Stats) (k : string) (v : Z) (o : Order.t).

Lemma stats_get_set_eq k v stats : stats_get k (stats_set k v stats) = Some v.
Proof.
  induction stats as [|[k' v'] stats IH]; cbn.
  - by rewrite decide_True.
  - case_decide as Hk; cbn; [by rewrite decide_True | by rewrite decide_False].
Qed.

Lemma stats_get_set_ne k k' v stats :
  k' ≠ k → stats_get k (stats_set k' v stats) = stats_get k stats.
Proof.
  intros Hne. induction stats as [|[k'' v''] stats IH]; cbn.
  - by rewrite decide_False.
  - destruct (decide (k'' = k')) as [->|Hk]; cbn.
    + by rewrite !decide_False.
    + case_decide; [done | exact IH].
Qed.

Lemma or_zero_Some v : or_zero (Some v) = v.
Proof. unfold or_zero. case_decide; by subst. Qed.

Lemma step_get tz stats o k :
  stats_get k (chartData_step tz stats o) =
    if decide (chartKey tz o = k)
    then Some (or_zero (stats_get k stats) + Order.totalAmount o)
    else stats_get k stats.
Proof.
  unfold chartData_step. fold (chartKey tz o). case_decide as Hk.
  - subst k. apply stats_get_set_eq.
  - by apply stats_get_set_ne.
Qed.

Lemma foldl_get tz k (orders : list Order.t) :
  ∀ stats,
    stats_get k (foldl (chartData_step tz) stats orders) =
      match group tz k orders with
      | [] => stats_get k stats
      | g => Some (or_zero (stats_get k stats) + revenue g)
      end.
Proof.
  unfold group. induction orders as [|o orders IH]; intros stats; [done|].
  cbn [foldl]. rewrite IH, step_get.
  destruct (decide (chartKey tz o = k)) as [Hk|Hk].
  - rewrite filter_cons_True by done. rewrite or_zero_Some.
    destruct (filter _ orders) as [|o' g]; cbn [revenue]; f_equal; lia.
  - by rewrite filter_cons_False.
Qed.

(** Each weekday name is written down once. *)
Lemma stats_set_keys k v stats :
  (stats_set k v stats).*1 =
    if decide (k ∈ stats.*1) then stats.*1 else stats.*1 ++ [k].
Proof.
  induction stats as [|[k' v'] stats IH]; cbn.
  - rewrite decide_False; [done | apply not_elem_of_nil].
  - destruct (decide (k' = k)) as [->|Hk]; cbn.
    + rewrite decide_True; [done | apply list_elem_of_here].
    + rewrite IH. destruct (decide (k ∈ stats.*1)) as [Hin|Hnin].
      * rewrite decide_True; [done | by apply list_elem_of_further].
      * rewrite decide_False; [done|].
        intros [?|?]%elem_of_cons; by subst.
Qed.

Lemma stats_set_NoDup k v stats : NoDup stats.*1 → NoDup (stats_set k v stats).*1.
Proof.
  intros Hnd. rewrite stats_set_keys. case_decide as Hin; [done|].
  apply NoDup_app. split_and!; [done| |apply NoDup_singleton].
  intros x Hx Hx'. apply list_elem_of_singleton in Hx'. by subst.
Qed.

Lemma chartData_stats_NoDup tz (orders : list Order.t) :
  NoDup (chartData_stats tz orders).*1.
Proof.
  unfold chartData_stats.
  assert (∀ stats, NoDup stats.*1 → NoDup (foldl (chartData_step tz) stats orders).*1) as H.
  { induction orders as [|o orders IH]; intros stats Hnd; [done|].
    cbn [foldl]. apply IH. by apply stats_set_NoDup. }
  apply H. apply NoDup_nil_2.
Qed.

Lemma chartData_names tz (orders : list Order.t) :
  datum_name <$> chartData tz orders = (chartData_stats tz orders).*1.
Proof.
  unfold chartData. rewrite <- list_fmap_compose.
  apply list_fmap_ext. by intros _ [k v] _.
Qed.

Lemma stats_get_elem k v stats :
  NoDup stats.*1 → (stats_get k stats = Some v ↔ (k, v) ∈ stats).
Proof.
  induction stats as [|[k' v'] stats IH]; cbn; intros Hnd.
  - split; [done|]. by intros ?%elem_of_nil.
  - apply NoDup_cons in Hnd as [Hk' Hnd]. case_decide as Hk.
    + subst k'. split.
      * intros [= ->]. apply list_elem_of_here.
      * intros [[= ->]|Hin]%elem_of_cons; [done|].
        destruct Hk'. apply list_elem_of_fmap. by exists (k, v).
    + rewrite IH by done. split.
      * by apply list_elem_of_further.
      * intros [[= -> ->]|Hin]%elem_of_cons; done.
Qed.
End chart_lemmas.

Lemma weekdayShort_inj (w w' : Z) :
  0 ≤ w < 7 → 0 ≤ w' < 7 → weekdayShort w = weekdayShort w' → w = w'.
Proof.
  intros Hw Hw'.
  assert (w = 0 ∨ w = 1 ∨ w = 2 ∨ w = 3 ∨ w = 4 ∨ w = 5 ∨ w = 6) as Hc by lia.
  assert (w' = 0 ∨ w' = 1 ∨ w' = 2 ∨ w' = 3 ∨ w' = 4 ∨ w' = 5 ∨ w' = 6) as Hc' by lia.
  destruct_or!; subst; cbn; (done || discriminate).
Qed.

Lemma chartKey_eq_iff (tz : Z) (o o' : Order.t) :
  chartKey tz o = chartKey tz o' ↔ (creationDay tz o - creationDay tz o') `mod` 7 = 0.
Proof.
  unfold chartKey, toLocaleDateString_weekday, WeekDay, creationDay.
  set (d := Day _). set (d' := Day _). split.
  - intros H. apply weekdayShort_inj in H; [|by apply Z.mod_pos_bound..].
    revert H. Z.div_mod_to_equations. lia.
  - intros H. f_equal. revert H. Z.div_mod_to_equations. lia.
Qed.

Lemma revenue_Permutation (g g' : list Order.t) : g ≡ₚ g' → revenue g = revenue g'.
Proof. induction 1; cbn [revenue]; lia. Qed.

Lemma chartData_elem (tz : Z) (orders : list Order.t) (k : string) (v : Z) :
  mkDatum k v ∈ chartData tz orders ↔
  group tz k orders ≠ [] ∧ v = revenue (group tz k orders).
Proof.
  unfold chartData. rewrite list_elem_of_fmap.
  transitivity (stats_get k (chartData_stats tz orders) = Some v).
  - rewrite stats_get_elem by apply chartData_stats_NoDup. split.
    + by intros ([k' v'] & [= -> ->] & Hin).
    + intros Hin. by exists (k, v).
  - unfold chartData_stats. rewrite foldl_get. cbn [stats_get or_zero].
    destruct (group tz k orders) as [|o g].
    + split; [done|]. by intros [? _].
    + split.
      * intros [= <-]. split; [done|]. cbn [revenue]. lia.
      * intros [_ ->]. reflexivity.
Qed.

Lemma group_three (tz : Z) (a1 a2 b : Order.t) (k : string) :
  chartKey tz a2 = chartKey tz a1 →
  chartKey tz a1 ≠ chartKey tz b →
  group tz k [a1; a2; b] =
    if decide (k = chartKey tz a1) then [a1; a2]
    else if decide (k = chartKey tz b) then [b] else [].
Proof.
  intros Hsame Hdiff. unfold group. rewrite !filter_cons, filter_nil.
  repeat case_decide; congruence.
Qed.

(** C1, as the code has it.  The revenue aggregate has one group per
    weekday name of the local creation date, without repetition, and the
    value of a group is the sum of [totalAmount] over the orders of that
    weekday.  So for orders of 10000 and 15000 created on a day A and an
    order of 5000 created on a day B that is not a whole number of weeks
    away from A, in any order, the aggregate has exactly two groups: 25000
    under the weekday of A and 5000 under the weekday of B. *)
Theorem revenue_by_weekday :
  (∀ (tz : Z) (orders : list Order.t),
     NoDup (datum_name <$> chartData tz orders) ∧
     ∀ k v, mkDatum k v ∈ chartData tz orders ↔
            group tz k orders ≠ [] ∧ v = revenue (group tz k orders)) ∧
  (∀ (tz : Z) (a1 a2 b : Order.t) (orders : list Order.t),
     Order.totalAmount a1 = 10000 →
     Order.totalAmount a2 = 15000 →
     Order.totalAmount b = 5000 →
     creationDay tz a1 = creationDay tz a2 →
     (creationDay tz a1 - creationDay tz b) `mod` 7 ≠ 0 →
     orders ≡ₚ [a1; a2; b] →
     chartData tz orders ≡ₚ
       [mkDatum (chartKey tz a1) 25000; mkDatum (chartKey tz b) 5000]).
Proof.
  split.
  - intros tz orders. split; [|apply chartData_elem].
    rewrite chartData_names. apply chartData_stats_NoDup.
  - intros tz a1 a2 b orders H1 H2 H3 Hsame Hdiff Hperm.
    assert (chartKey tz a2 = chartKey tz a1) as Hk2.
    { apply chartKey_eq_iff. rewrite Hsame, Z.sub_diag. done. }
    assert (chartKey tz a1 ≠ chartKey tz b) as Hkb.
    { intros Heq. by apply chartKey_eq_iff in Heq. }
    apply NoDup_Permutation.
    + eapply NoDup_fmap_1. rewrite chartData_names. apply chartData_stats_NoDup.
    + apply NoDup_cons. split; [|apply NoDup_singleton].
      by intros [= Heq]%list_elem_of_singleton.
    + intros [k v]. rewrite chartData_elem.
      assert (group tz k orders ≡ₚ group tz k [a1; a2; b]) as Hg
        by (unfold group; by rewrite Hperm).
      rewrite (revenue_Permutation _ _ Hg).
      assert (group tz k orders ≠ [] ↔ group tz k [a1; a2; b] ≠ []) as ->.
      { split; intros Hne Hnil; apply Hne.
        - rewrite Hnil in Hg. by apply Permutation_nil_r in Hg.
        - rewrite Hnil in Hg. by apply Permutation_nil_l in Hg. }
      rewrite group_three by done.
      rewrite elem_of_cons, list_elem_of_singleton.
      destruct (decide (k = chartKey tz a1)) as [->|HA];
        [|destruct (decide (k = chartKey tz b)) as [->|HB]];
        cbn [revenue]; rewrite ?H1, ?H2, ?H3.
      * split.
        -- intros [_ ->]. by left.
        -- intros [[= ->]|[= Hk _]]; [by split | by destruct Hkb].
      * split.
        -- intros [_ ->]. by right.
        -- intros [[= Hk _]|[= ->]]; [by destruct HA | by split].
      * split.
        -- by intros [Hne _].
        -- intros [[= Hk _]|[= Hk _]]; by subst.
Qed.

Lemma revenue_by_weekday_witness :
  chartData seoul [order_thu_noon; order_wed_noon; order_wed_one] ≡ₚ
    [mkDatum (chartKey seoul order_wed_noon) 25000;
     mkDatum (chartKey seoul order_thu_noon) 5000].
Proof.
  apply (proj2 revenue_by_weekday seoul order_wed_noon order_wed_one order_thu_noon).
  - reflexivity.
  - reflexivity.
  - reflexivity.
  - reflexivity.
  - vm_compute. discriminate.
  - apply (Permutation_cons_append [order_wed_noon; order_wed_one] order_thu_noon).
Defined.

(** C1 as the specification words it fails for two days a week apart:
    orders of 10000 and 15000 created on Wednesday 2024-05-01 and an order
    of 5000 created on Wednesday 2024-05-08 fall on two distinct calendar
    days, and the aggregate has the single group 30000, not the two groups
    25000 and 5000. *)
Lemma revenue_by_day_counterexample :
  creationDay seoul order_wed_noon = creationDay seoul order_wed_one ∧
  creationDay seoul order_wed_noon ≠ creationDay seoul order_next_wed_noon ∧
  chartData seoul [order_wed_noon; order_wed_one; order_next_wed_noon]
    = [mkDatum "수" 30000] ∧
  ¬ ∃ kA kB,
      chartData seoul [order_wed_noon; order_wed_one; order_next_wed_noon]
        ≡ₚ [mkDatum kA 25000; mkDatum kB 5000].
Proof.
  split_and!.
  - reflexivity.
  - vm_compute. discriminate.
  - reflexivity.
  - intros (kA & kB & Hperm). apply Permutation_length in Hperm.
    vm_compute in Hperm. discriminate.
Qed.

(** * Further properties of the code *)

(** ** The menu list *)

(** The category filter of the menu list shows, in their order, exactly
    the dishes of the chosen category, and all of them under ['all']; the
    three categories split the menu, and filtering twice changes nothing. *)
Theorem filteredMenus_spec :
  (∀ (c : Category) (menus : list MenuItem.t) (m : MenuItem.t),
     m ∈ filteredMenus (filter_category c) menus ↔ m ∈ menus ∧ MenuItem.category m = c) ∧
  (∀ (f : MenuFilter) (menus : list MenuItem.t),
     filteredMenus f menus `sublist_of` menus) ∧
  (∀ menus : list MenuItem.t,
     (length (filteredMenus (filter_category premium) menus)
      + length (filteredMenus (filter_category regular) menus)
      + length (filteredMenus (filter_category diet) menus))%nat
     = length (filteredMenus filter_all menus)) ∧
  (∀ (f : MenuFilter) (menus : list MenuItem.t),
     filteredMenus f (filteredMenus f menus) = filteredMenus f menus).
Proof.
  split_and!.
  - intros c menus m. cbn. rewrite list_elem_of_filter. tauto.
  - intros [|c] menus; cbn; [done | apply sublist_filter].
  - intros menus. cbn. induction menus as [|m menus IH]; [done|].
    rewrite !filter_cons. destruct (MenuItem.category m);
      repeat case_decide; try done; cbn [length]; lia.
  - intros [|c] menus; cbn; [done|].
    induction menus as [|m menus IH]; [done|].
    rewrite filter_cons. case_decide as Hm; [|exact IH].
    rewrite filter_cons_True by done. by rewrite IH.
Qed.

(** ** More on the cart *)

Section cart_algebra.
Implicit Types (c : Cart) (i e : CartItem.t) (item : MenuItem.t) (k : string).

Lemma foldl_count c (acc : Z) :
  foldl (λ a x, a + CartItem.quantity x) acc c = acc + cartCount c.
Proof.
  unfold cartCount. revert acc. induction c as [|i c IH]; intros acc; cbn [foldl].
  - lia.
  - rewrite IH, (IH (0 + _)). lia.
Qed.

Lemma cartCount_cons i c : cartCount (i :: c) = CartItem.quantity i + cartCount c.
Proof. unfold cartCount at 1. cbn [foldl]. rewrite foldl_count. lia. Qed.

Lemma cartCount_app c c' : cartCount (c ++ c') = cartCount c + cartCount c'.
Proof.
  induction c as [|i c IH]; [done|].
  rewrite <- app_comm_cons, !cartCount_cons, IH. lia.
Qed.

Lemma sum_price_quantity_app c c' :
  sum_price_quantity (c ++ c') = sum_price_quantity c + sum_price_quantity c'.
Proof. induction c as [|i c IH]; cbn [sum_price_quantity app]; lia. Qed.

(** With distinct identifiers, the entry of an identifier is alone. *)
Lemma entry_unique c i j :
  NoDup (cart_ids c) → i ∈ c → j ∈ c → CartItem.id j = CartItem.id i → j = i.
Proof.
  unfold cart_ids. induction c as [|x c IH]; intros Hnd Hi Hj Hid.
  - by apply elem_of_nil in Hi.
  - rewrite fmap_cons in Hnd. apply NoDup_cons in Hnd as [Hx Hnd].
    apply elem_of_cons in Hi as [->|Hi]; apply elem_of_cons in Hj as [->|Hj].
    + done.
    + destruct Hx. rewrite <- Hid. apply list_elem_of_fmap. eauto.
    + destruct Hx. rewrite Hid. apply list_elem_of_fmap. eauto.
    + by apply IH.
Qed.

(** A map that changes at most the entry [e] of a cart with distinct
    identifiers changes the badge and the total by what it does to [e]. *)
Lemma fmap_one_entry (f : CartItem.t → CartItem.t) c e :
  NoDup (cart_ids c) → e ∈ c →
  (∀ j, CartItem.id j ≠ CartItem.id e → f j = j) →
  cartCount (f <$> c) = cartCount c + (CartItem.quantity (f e) - CartItem.quantity e) ∧
  sum_price_quantity (f <$> c) =
    sum_price_quantity c
    + (CartItem.price (f e) * CartItem.quantity (f e) - CartItem.price e * CartItem.quantity e).
Proof.
  unfold cart_ids. intros Hnd He Hf.
  induction c as [|x c IH]; [by apply elem_of_nil in He|].
  rewrite fmap_cons in Hnd. apply NoDup_cons in Hnd as [Hx Hnd].
  rewrite !fmap_cons, !cartCount_cons. cbn [sum_price_quantity].
  apply elem_of_cons in He as [->|He].
  - assert (f <$> c = c) as ->.
    { rewrite <- (list_fmap_id c) at 2. apply list_fmap_ext.
      intros n j Hj. cbn. apply Hf. intros Heq. apply Hx. rewrite <- Heq.
      apply list_elem_of_fmap. exists j. split; [done|].
      by eapply list_elem_of_lookup_2. }
    lia.
  - destruct (IH Hnd He) as [-> ->].
    rewrite (Hf x); [lia|].
    intros Heq. apply Hx. rewrite Heq. apply list_elem_of_fmap. eauto.
Qed.
End cart_algebra.

Lemma fmap_fixed {A} (g : A → A) (l : list A) :
  (∀ x, x ∈ l → g x = x) → g <$> l = l.
Proof.
  intros Hg. induction l as [|x l IH]; [done|].
  rewrite fmap_cons, Hg by apply list_elem_of_here.
  f_equal. apply IH. intros y Hy. apply Hg. by apply list_elem_of_further.
Qed.

(** Steps of the quantity of an entry add up as long as the floor of 1 is
    not hit: after a step that does not decrease, any step composes with
    it into the step of the sum.  So minus undoes plus; and plus undoes
    minus on a row whose minus button is enabled, that is, whose quantity
    is at least 2. *)
Theorem quantity_steps_compose :
  (∀ (k : string) (d1 d2 : Z) (c : Cart),
     Forall (λ i, 1 ≤ CartItem.quantity i) c → 0 ≤ d1 →
     updateQuantity_update k d2 (updateQuantity_update k d1 c)
     = updateQuantity_update k (d1 + d2) c) ∧
  (∀ (k : string) (c : Cart),
     Forall (λ i, 1 ≤ CartItem.quantity i) c →
     updateQuantity_update k (-1) (updateQuantity_update k 1 c) = c) ∧
  (∀ (c : Cart) (i : CartItem.t),
     cart_ok c → i ∈ c → 2 ≤ CartItem.quantity i →
     updateQuantity_update (CartItem.id i) 1
       (updateQuantity_update (CartItem.id i) (-1) c) = c).
Proof.
  assert (∀ (k : string) (d1 d2 : Z) (c : Cart),
     Forall (λ i, 1 ≤ CartItem.quantity i) c → 0 ≤ d1 →
     updateQuantity_update k d2 (updateQuantity_update k d1 c)
     = updateQuantity_update k (d1 + d2) c) as Hcompose.
  { intros k d1 d2 c Hq Hd. unfold updateQuantity_update.
    rewrite <- list_fmap_compose. apply list_fmap_ext. intros n j Hj. cbn.
    rewrite Forall_forall in Hq.
    assert (1 ≤ CartItem.quantity j) by (eapply Hq, list_elem_of_lookup_2; eauto).
    destruct (decide (CartItem.id j = k)) as [Hk|Hk].
    - rewrite decide_True by done. unfold CartItem.with_quantity. cbn.
      f_equal. lia.
    - by rewrite decide_False. }
  split_and!.
  - exact Hcompose.
  - intros k c Hq. rewrite Hcompose by (done || lia).
    unfold updateQuantity_update. apply fmap_fixed. intros j Hj.
    rewrite Forall_forall in Hq. specialize (Hq j Hj). cbn in Hq.
    case_decide; [|done].
    replace (Z.max 1 (CartItem.quantity j + (1 + -1))) with (CartItem.quantity j) by lia.
    by destruct j.
  - intros c i [Hnd Hq] Hi Hi2. unfold updateQuantity_update.
    rewrite <- list_fmap_compose. apply fmap_fixed. intros j Hj. cbn.
    destruct (decide (CartItem.id j = CartItem.id i)) as [Hk|Hk].
    + assert (j = i) as -> by (by eapply entry_unique).
      rewrite decide_True by done. unfold CartItem.with_quantity. cbn.
      replace (Z.max 1 (Z.max 1 (CartItem.quantity i + -1) + 1))
        with (CartItem.quantity i) by lia.
      by destruct i.
    + by rewrite decide_False.
Qed.

Lemma quantity_steps_compose_witness :
  let c := [CartItem.of_menu bulgogi 2; CartItem.of_menu galbi 1] in
  updateQuantity_update "m1" (-7) (updateQuantity_update "m1" 3 c)
  = updateQuantity_update "m1" (3 + -7) c.
Proof.
  intros c. apply (proj1 quantity_steps_compose "m1" 3 (-7) c).
  - repeat constructor; cbn; lia.
  - lia.
Defined.

(** Removing undoes the first add of a dish; after a removal no entry of
    the identifier is left, whatever the cart was; and removals commute. *)
Theorem add_remove_round_trip :
  (∀ (item : MenuItem.t) (c : Cart),
     MenuItem.id item ∉ cart_ids c →
     removeFromCart_update (MenuItem.id item) (addToCart_update item c) = c) ∧
  (∀ (k : string) (c : Cart), k ∉ cart_ids (removeFromCart_update k c)) ∧
  (∀ (k k' : string) (c : Cart),
     removeFromCart_update k (removeFromCart_update k' c)
     = removeFromCart_update k' (removeFromCart_update k c)).
Proof.
  split_and!.
  - intros item c Hnin. rewrite add_absent by done.
    unfold removeFromCart_update. rewrite filter_app.
    fold (removeFromCart_update (MenuItem.id item) c).
    rewrite remove_absent by done.
    rewrite filter_cons_False by (intros H; by apply H).
    by rewrite filter_nil, app_nil_r.
  - intros k c. rewrite remove_ids. intros Hin.
    apply list_elem_of_filter in Hin as [Hne _]. by apply Hne.
  - intros k k' c. unfold removeFromCart_update.
    induction c as [|i c IH]; [done|].
    destruct (decide (CartItem.id i = k)) as [Hk|Hk];
      destruct (decide (CartItem.id i = k')) as [Hk'|Hk'].
    + rewrite (filter_cons_False _ _ c) by (intros H; by apply H).
      rewrite (filter_cons_False _ _ c) by (intros H; by apply H). exact IH.
    + rewrite (filter_cons_True (λ i, CartItem.id i ≠ k')) by done.
      rewrite !(filter_cons_False (λ i, CartItem.id i ≠ k)) by (intros H; by apply H).
      exact IH.
    + rewrite (filter_cons_True (λ i, CartItem.id i ≠ k)) by done.
      rewrite !(filter_cons_False (λ i, CartItem.id i ≠ k')) by (intros H; by apply H).
      exact IH.
    + rewrite (filter_cons_True (λ i, CartItem.id i ≠ k')) by done.
      rewrite !(filter_cons_True (λ i, CartItem.id i ≠ k)) by done.
      rewrite (filter_cons_True (λ i, CartItem.id i ≠ k')) by done.
      by rewrite IH.
Qed.

Lemma add_remove_round_trip_witness :
  removeFromCart_update "m2" (addToCart_update galbi [CartItem.of_menu bulgogi 3])
  = [CartItem.of_menu bulgogi 3].
Proof.
  apply (proj1 add_remove_round_trip galbi [CartItem.of_menu bulgogi 3]).
  apply (bool_decide_unpack _). reflexivity.
Defined.

Lemma bump_other (item : MenuItem.t) (e j : CartItem.t) :
  CartItem.id e = MenuItem.id item → CartItem.id j ≠ CartItem.id e → bump item j = j.
Proof. intros He Hj. unfold bump. rewrite decide_False; [done|congruence]. Qed.

Lemma bump_entry (item : MenuItem.t) (e : CartItem.t) :
  CartItem.id e = MenuItem.id item →
  bump item e = CartItem.with_quantity e (CartItem.quantity e + 1).
Proof. intros He. unfold bump. by rewrite decide_True. Qed.

Lemma entry_of_id (k : string) (c : Cart) :
  k ∈ cart_ids c → ∃ e, e ∈ c ∧ CartItem.id e = k.
Proof. intros (e & -> & He)%list_elem_of_fmap. eauto. Qed.

(** The number in the badge of the cart icon goes up by exactly one with
    every add, never shows less than the number of rows of the cart, and a
    removal takes away the quantity of the entry removed. *)
Theorem badge_counts_adds :
  (∀ (item : MenuItem.t) (c : Cart),
     NoDup (cart_ids c) →
     cartCount (addToCart_update item c) = cartCount c + 1) ∧
  (∀ c : Cart, cart_ok c → Z.of_nat (length c) ≤ cartCount c) ∧
  (∀ (k : string) (c : Cart),
     cartCount (removeFromCart_update k c)
     = cartCount c - cartCount (filter (λ i, CartItem.id i = k) c)).
Proof.
  split_and!.
  - intros item c Hnd.
    destruct (decide (MenuItem.id item ∈ cart_ids c)) as [Hin|Hnin].
    + rewrite add_present by done. fold (bump item).
      destruct (entry_of_id _ _ Hin) as (e & He & Hid).
      destruct (fmap_one_entry (bump item) c e Hnd He) as [-> _].
      { intros j. by apply bump_other. }
      rewrite bump_entry by done. cbn. lia.
    + rewrite add_absent by done. rewrite cartCount_app, cartCount_cons. cbn. lia.
  - intros c [_ Hq]. induction Hq as [|i c Hi _ IH]; [done|].
    rewrite cartCount_cons. cbn [length]. lia.
  - intros k c. unfold removeFromCart_update.
    induction c as [|i c IH]; [done|].
    destruct (decide (CartItem.id i = k)) as [Hk|Hk].
    + rewrite filter_cons_False by (intros H; by apply H).
      rewrite filter_cons_True by done. rewrite !cartCount_cons, IH. lia.
    + rewrite filter_cons_True by done.
      rewrite filter_cons_False by done. rewrite !cartCount_cons, IH. lia.
Qed.

Lemma badge_counts_adds_witness :
  cartCount (addToCart_update bulgogi [CartItem.of_menu bulgogi 2; CartItem.of_menu galbi 1])
  = cartCount [CartItem.of_menu bulgogi 2; CartItem.of_menu galbi 1] + 1.
Proof.
  apply (proj1 badge_counts_adds bulgogi).
  apply (bool_decide_unpack _). reflexivity.
Defined.

(** An add raises the total by one unit price: the price of the dish when
    it enters the cart, and afterwards the price kept in its entry, even
    when the menu has a new price for it by then.  A removal lowers the
    total by the amount of the entry removed. *)
Theorem total_after_add_and_remove :
  (∀ (item : MenuItem.t) (c : Cart),
     MenuItem.id item ∉ cart_ids c →
     cartTotal (addToCart_update item c) = cartTotal c + MenuItem.price item) ∧
  (∀ (item : MenuItem.t) (c : Cart) (e : CartItem.t),
     NoDup (cart_ids c) → e ∈ c → CartItem.id e = MenuItem.id item →
     cartTotal (addToCart_update item c) = cartTotal c + CartItem.price e) ∧
  (∀ (k : string) (c : Cart),
     cartTotal (removeFromCart_update k c)
     = cartTotal c - cartTotal (filter (λ i, CartItem.id i = k) c)).
Proof.
  split_and!.
  - intros item c Hnin. rewrite add_absent, !cartTotal_sum by done.
    rewrite sum_price_quantity_app. cbn. lia.
  - intros item c e Hnd He Hid. rewrite !cartTotal_sum.
    rewrite add_present.
    + fold (bump item).
      destruct (fmap_one_entry (bump item) c e Hnd He) as [_ ->].
      { intros j. by apply bump_other. }
      rewrite bump_entry by done. cbn. lia.
    + rewrite <- Hid. unfold cart_ids. apply list_elem_of_fmap. eauto.
  - intros k c. rewrite !cartTotal_sum. unfold removeFromCart_update.
    induction c as [|i c IH]; [done|].
    destruct (decide (CartItem.id i = k)) as [Hk|Hk].
    + rewrite filter_cons_False by (intros H; by apply H).
      rewrite filter_cons_True by done. cbn [sum_price_quantity]. lia.
    + rewrite filter_cons_True by done.
      rewrite filter_cons_False by done. cbn [sum_price_quantity]. lia.
Qed.

Lemma total_after_add_and_remove_witness :
  cartTotal (addToCart_update
               (MenuItem.mk "m1" "불고기 도시락" "" 9500 "" regular None true)
               [CartItem.of_menu bulgogi 2; CartItem.of_menu galbi 1])
  = cartTotal [CartItem.of_menu bulgogi 2; CartItem.of_menu galbi 1] + 8000.
Proof.
  apply (proj1 (proj2 total_after_add_and_remove)
           (MenuItem.mk "m1" "불고기 도시락" "" 9500 "" regular None true)
           [CartItem.of_menu bulgogi 2; CartItem.of_menu galbi 1]
           (CartItem.of_menu bulgogi 2)).
  - apply (bool_decide_unpack _). reflexivity.
  - apply list_elem_of_here.
  - reflexivity.
Defined.

(** ** Dates that the form can hold *)

Lemma civil_from_days_range (z : Z) :
  0 ≤ z < 2932897 →
  let '(y, m, d) := civil_from_days z in
  1970 ≤ y ≤ 9999 ∧ 1 ≤ m ≤ 12 ∧ 1 ≤ d ≤ 31.
Proof.
  intros Hz. unfold civil_from_days. cbv zeta.
  set (z' := z + 719468).
  set (era := z' `div` 146097).
  set (doe := z' - era * 146097).
  assert (0 ≤ doe < 146097) as Hdoe
    by (subst doe era; Z.div_mod_to_equations; lia).
  pose proof (year_of_era_bound doe Hdoe) as Hy. cbv zeta in Hy.
  set (yoe := (doe - doe `div` 1460 + doe `div` 36524 - doe `div` 146096) `div` 365) in *.
  destruct Hy as [Hyoe Hdoy].
  set (doy := doe - (365 * yoe + yoe `div` 4 - yoe `div` 100)) in *.
  pose proof (month_of_year_bound doy Hdoy) as Hm. cbv zeta in Hm.
  set (mp := (5 * doy + 2) `div` 153) in *.
  destruct Hm as [Hmp Hd].
  assert (mp = (5 * doy + 2) `div` 153) as Emp by reflexivity.
  assert (doy = doe - (365 * yoe + yoe `div` 4 - yoe `div` 100)) as Edoy by reflexivity.
  assert (yoe = (doe - doe `div` 1460 + doe `div` 36524 - doe `div` 146096) `div` 365)
    as Eyoe by reflexivity.
  assert (doe = z' - era * 146097) as Edoe by reflexivity.
  assert (era = z' `div` 146097) as Eera by reflexivity.
  assert (z' = z + 719468) as Ez by reflexivity.
  clearbody mp doy yoe doe era z'.
  repeat case_decide; (split; [|lia]).
  all: Z.div_mod_to_equations; lia.
Qed.

Lemma length_append (s1 s2 : string) :
  String.length (s1 +:+ s2) = (String.length s1 + String.length s2)%nat.
Proof. induction s1 as [|a s1 IH]; [done|]. rewrite append_cons. cbn. by rewrite IH. Qed.

Lemma length_digits (w : nat) (n : Z) : String.length (digits w n) = w.
Proof.
  revert n. induction w as [|w IH]; intros n; [done|].
  cbn [digits]. rewrite length_append, IH. cbn. lia.
Qed.

Lemma append_nonempty (s1 s2 : string) : s2 ≠ "" → s1 +:+ s2 ≠ "".
Proof.
  intros Hne Heq. apply (f_equal String.length) in Heq.
  rewrite length_append in Heq. destruct s2; [done|]. cbn in Heq. lia.
Qed.

Lemma localCalendarDate_nonempty (tz t n : Z) : localCalendarDate tz t n ≠ "".
Proof.
  unfold localCalendarDate. destruct (civil_from_days _) as [[y m] d].
  apply append_nonempty. discriminate.
Qed.



(** From 1970 to the end of the year 9999, the date put in the field on
    opening is a date of the form YYYY-MM-DD: four digits of a year, two of
    a month from 1 to 12 and two of a day from 1 to 31, ten characters in
    all. *)
Theorem default_date_well_formed (tz now : Z) (f : CheckoutForm) :
  0 ≤ now → now + msPerDay < year10000 →
  ∃ y m d,
    1970 ≤ y ≤ 9999 ∧ 1 ≤ m ≤ 12 ∧ 1 ≤ d ≤ 31 ∧
    deliveryDate (defaultDateEffect tz now true f)
    = digits 4 y +:+ "-" +:+ digits 2 m +:+ "-" +:+ digits 2 d ∧
    String.length (deliveryDate (defaultDateEffect tz now true f)) = 10%nat.
Proof.
  intros H0 Hmax.
  destruct (default_delivery_date_is_UTC_date tz now f) as [-> _].
  cbn [deliveryDate setDeliveryDate]. unfold localCalendarDate, LocalTime.
  rewrite Z.add_0_r.
  assert (0 ≤ Day now + 1 < 2932897) as Hday.
  { unfold Day, msPerDay, year10000 in *. Z.div_mod_to_equations. lia. }
  pose proof (civil_from_days_range _ Hday) as Hr.
  destruct (civil_from_days (Day now + 1)) as [[y m] d].
  destruct Hr as (Hy & Hm & Hd).
  exists y, m, d. unfold isoYear. rewrite decide_True by lia.
  split_and!; try lia; [reflexivity|].
  rewrite !length_append, !length_digits. reflexivity.
Qed.

Lemma default_date_well_formed_witness :
  ∃ y m d,
    1970 ≤ y ≤ 9999 ∧ 1 ≤ m ≤ 12 ∧ 1 ≤ d ≤ 31 ∧
    deliveryDate (defaultDateEffect seoul 1714518000000 true initialCheckoutForm)
    = digits 4 y +:+ "-" +:+ digits 2 m +:+ "-" +:+ digits 2 d ∧
    String.length (deliveryDate (defaultDateEffect seoul 1714518000000 true initialCheckoutForm))
    = 10%nat.
Proof.
  apply (default_date_well_formed seoul 1714518000000 initialCheckoutForm).
  - lia.
  - reflexivity.
Defined.

(** Opening the checkout modal replaces whatever date the field held and
    leaves the other fields as they were, so that address and contact
    survive from one opening to the next; the date it puts is never empty,
    so right after opening the submit button is disabled exactly when the
    address or the contact is empty.  While the modal stays closed the
    effect does nothing. *)
Theorem opening_the_checkout_form (tz now : Z) (f : CheckoutForm) :
  let f' := defaultDateEffect tz now true f in
  deliveryDate f' ≠ "" ∧
  address f' = address f ∧ contact f' = contact f ∧ deliveryTime f' = deliveryTime f ∧
  (∀ chosen, defaultDateEffect tz now true (setDeliveryDate chosen f) = f') ∧
  (submitDisabled f' = true ↔ address f = "" ∨ contact f = "") ∧
  defaultDateEffect tz now false f = f.
Proof.
  intros f'. subst f'.
  destruct (default_delivery_date_is_UTC_date tz now f) as [Hf _].
  split_and!; try reflexivity.
  - rewrite Hf. apply localCalendarDate_nonempty.
  - unfold submitDisabled. rewrite Hf. cbn [address contact deliveryDate setDeliveryDate].
    rewrite !orb_true_iff, !negb_true_iff, !truthy_string_empty.
    pose proof (localCalendarDate_nonempty 0 now 1). tauto.
Qed.

(** ** Signing in and out *)

Lemma loginErrorMessage_nonempty (code message : string) :
  loginErrorMessage code message ≠ "".
Proof.
  unfold loginErrorMessage. repeat case_decide; try discriminate.
  destruct (truthy_string message); discriminate.
Qed.

(** While a sign-in is pending the login handler does nothing.  Otherwise
    it opens exactly one popup and leaves the pending flag down again; a
    popup that resolves leaves the notification alone (the user arrives
    through the listener), one that fails sets an error notification whose
    text is never empty and, for the five error codes that the handler
    knows, does not depend on the message of the provider.  The cart, the
    user and the page are never touched. *)
Theorem login_outcome :
  (∀ (outcome : LoginOutcome) (s : AppState),
     isLoggingIn s = true → handleLogin outcome s = s) ∧
  (∀ (outcome : LoginOutcome) (s : AppState),
     isLoggingIn s = false →
     let s' := handleLogin outcome s in
     requests s' = requests s ++ [signInWithPopup] ∧
     isLoggingIn s' = false ∧
     cart s' = cart s ∧ user s' = user s ∧ activePage s' = activePage s ∧
     match outcome with
     | LoginResolved => toast s' = toast s
     | LoginRejected code message =>
         ∃ text, toast s' = Some (mkToast text error) ∧ text ≠ ""
     end) ∧
  (∀ code message message' : string,
     code ∈ ["auth/popup-closed-by-user"; "auth/cancelled-popup-request";
             "auth/popup-blocked"; "auth/operation-not-allowed";
             "auth/unauthorized-domain"] →
     loginErrorMessage code message = loginErrorMessage code message').
Proof.
  split_and!.
  - intros outcome s Hs. unfold handleLogin. by rewrite Hs.
  - intros outcome s Hs. unfold handleLogin. rewrite Hs.
    destruct outcome as [|code message]; cbn; split_and!; try done.
    eexists. split; [done|]. apply loginErrorMessage_nonempty.
  - intros code message message' Hcode. unfold loginErrorMessage.
    repeat case_decide; try done.
    repeat (apply elem_of_cons in Hcode as [->|Hcode]; [done|]).
    by apply elem_of_nil in Hcode.
Qed.

Lemma login_outcome_witness :
  let s' := handleLogin (LoginRejected "auth/popup-blocked" "blocked") initialApp in
  requests s' = requests initialApp ++ [signInWithPopup] ∧
  isLoggingIn s' = false ∧
  cart s' = cart initialApp ∧ user s' = user initialApp ∧
  activePage s' = activePage initialApp ∧
  ∃ text, toast s' = Some (mkToast text error) ∧ text ≠ "".
Proof.
  exact (proj1 (proj2 login_outcome)
           (LoginRejected "auth/popup-blocked" "blocked") initialApp eq_refl).
Defined.

(** After a logout and the listener's report that nobody is signed in, the
    cart is empty and the home view is the one rendered, whatever page was
    active and whoever was signed in; one sign-out call has gone out.  The
    logout closes neither the cart drawer nor the checkout modal, and the
    orders fetched for an administrator stay in the state. *)
Theorem logout_returns_home (s : AppState) :
  let s' := onAuthStateChanged None (handleLogout s) in
  cart s' = [] ∧ user s' = None ∧ isAdmin s' = false ∧
  showHome s' = true ∧ showMenu s' = false ∧
  showAdminDashboard s' = false ∧ showAccessDenied s' = false ∧
  requests s' = requests s ++ [signOut] ∧
  toast s' = Some (mkToast "로그아웃 되었습니다." success) ∧
  isCartOpen s' = isCartOpen s ∧ isCheckoutOpen s' = isCheckoutOpen s ∧
  orders s' = orders s ∧ menus s' = menus s.
Proof. by split_and!. Qed.

(** ** Checkout without and with an identity *)

(** A checkout while nobody is signed in never sends an order, whatever
    the form, the time and the readiness of the store: it leaves the cart,
    the modal and the drawer as they are, sets an error notification and
    opens the sign-in popup unless one is pending already. *)
Theorem checkout_without_identity (now : Z) (stored : bool) (login : LoginOutcome)
    (d : CheckoutForm) (s : AppState) :
  user s = None →
  let s' := handleCheckout now stored login d s in
  requests s' = requests s ++ (if isLoggingIn s then [] else [signInWithPopup]) ∧
  cart s' = cart s ∧ isCheckoutOpen s' = isCheckoutOpen s ∧
  isCartOpen s' = isCartOpen s ∧ user s' = None ∧
  (∃ text, toast s' = Some (mkToast text error)) ∧
  (∀ now' stored' d', handleCheckout now' stored' login d' s = s').
Proof.
  intros Hu s'. subst s'. unfold handleCheckout. rewrite Hu.
  unfold andThen, handleLogin. cbn.
  destruct (isLoggingIn s) eqn:Hl; cbn.
  - rewrite app_nil_r. split_and!; eauto.
  - destruct login; cbn; split_and!; eauto.
Qed.

Lemma checkout_without_identity_witness :
  let s := add_all [bulgogi] initialApp in
  let d := mkForm "서울시 강남구 테헤란로 123" "010-1111-2222" "2024-05-01" lunch in
  let s' := handleCheckout 1714518000000 true LoginResolved d s in
  requests s' = requests s ++ (if isLoggingIn s then [] else [signInWithPopup]) ∧
  cart s' = cart s ∧ isCheckoutOpen s' = isCheckoutOpen s ∧
  isCartOpen s' = isCartOpen s ∧ user s' = None ∧
  (∃ text, toast s' = Some (mkToast text error)) ∧
  (∀ now' stored' d', handleCheckout now' stored' LoginResolved d' s = s').
Proof.
  intros s d.
  exact (checkout_without_identity 1714518000000 true LoginResolved d s eq_refl).
Defined.

(** After a checkout whose write failed, a second submission sends the
    same order again, with the same items, total and delivery data and a
    new creation time: nothing of the failed attempt is lost or kept. *)
Theorem checkout_retry_after_failure (now now' : Z) (stored : bool)
    (login : LoginOutcome) (d : CheckoutForm) (s : AppState) (u : UserProfile.t) :
  user s = Some u →
  let s1 := handleCheckout now false login d s in
  let s2 := handleCheckout now' stored login d s1 in
  ∃ od,
    requests s2 =
      requests s ++
      [addDoc_orders od;
       addDoc_orders
         (OrderData.mk (OrderData.userId od) (OrderData.userEmail od)
            (OrderData.items od) (OrderData.totalAmount od) (OrderData.status od)
            (OrderData.address od) (OrderData.contact od) (OrderData.deliveryDate od)
            (OrderData.deliveryTime od) now')] ∧
    OrderData.createdAt od = now ∧ OrderData.items od = cart s ∧
    (stored = true → cart s2 = []) ∧ (stored = false → cart s2 = cart s).
Proof.
  intros Hu. unfold handleCheckout. rewrite Hu. cbn. rewrite Hu.
  exists (OrderData.mk (UserProfile.uid u)
            (or_string (UserProfile.email u) "알 수 없음") (cart s)
            (cartTotal (cart s)) pending (address d) (contact d)
            (deliveryDate d) (deliveryTime d) now).
  split_and!.
  - destruct stored; cbn; rewrite <- app_assoc; reflexivity.
  - reflexivity.
  - reflexivity.
  - by intros ->.
  - by intros ->.
Qed.

Lemma checkout_retry_after_failure_witness :
  let s := add_all [bulgogi; galbi] (setUser (Some customer) initialApp) in
  let d := mkForm "서울시 강남구 테헤란로 123" "010-1111-2222" "2024-05-01" lunch in
  let s1 := handleCheckout 1714518000000 false LoginResolved d s in
  let s2 := handleCheckout 1714518060000 true LoginResolved d s1 in
  ∃ od,
    requests s2 =
      requests s ++
      [addDoc_orders od;
       addDoc_orders
         (OrderData.mk (OrderData.userId od) (OrderData.userEmail od)
            (OrderData.items od) (OrderData.totalAmount od) (OrderData.status od)
            (OrderData.address od) (OrderData.contact od) (OrderData.deliveryDate od)
            (OrderData.deliveryTime od) 1714518060000)] ∧
    OrderData.createdAt od = 1714518000000 ∧ OrderData.items od = cart s ∧
    (true = true → cart s2 = []) ∧ (true = false → cart s2 = cart s).
Proof.
  intros s d.
  exact (checkout_retry_after_failure 1714518000000 1714518060000 true LoginResolved
           d s customer eq_refl).
Defined.

(** ** Which view is rendered *)

(** In every state exactly one of the four main views is rendered.  The
    dashboard is rendered only on the admin page and only for the
    administrator; when the listener reports another identity, or none,
    while the admin page is active, the view that denies access takes its
    place. *)
Theorem exactly_one_main_view :
  (∀ s : AppState,
     Z.b2z (showHome s) + Z.b2z (showMenu s) + Z.b2z (showAdminDashboard s)
     + Z.b2z (showAccessDenied s) = 1) ∧
  (∀ (firebaseUser : option FirebaseUser.t) (s : AppState),
     showAdminDashboard (onAuthStateChanged firebaseUser s) = true ↔
     activePage s = admin ∧
     ∃ fu, firebaseUser = Some fu ∧ FirebaseUser.email fu = Some ADMIN_EMAIL) ∧
  (∀ (firebaseUser : option FirebaseUser.t) (s : AppState),
     showAccessDenied (onAuthStateChanged firebaseUser s) = true ↔
     activePage s = admin ∧
     ¬ ∃ fu, firebaseUser = Some fu ∧ FirebaseUser.email fu = Some ADMIN_EMAIL).
Proof.
  assert (∀ (firebaseUser : option FirebaseUser.t) (s : AppState),
    isAdmin (onAuthStateChanged firebaseUser s) = true ↔
    ∃ fu, firebaseUser = Some fu ∧ FirebaseUser.email fu = Some ADMIN_EMAIL) as Hadmin.
  { intros [fu|] s; cbn.
    - unfold email_is_admin. destruct (FirebaseUser.email fu) as [e|] eqn:He.
      + rewrite bool_decide_eq_true. split.
        * intros ->. eauto.
        * intros (fu' & [= <-] & Hfu). congruence.
      + split; [done|]. intros (fu' & [= <-] & Hfu). congruence.
    - split; [done|]. by intros (fu' & ? & _). }
  assert (∀ (firebaseUser : option FirebaseUser.t) (s : AppState),
    activePage (onAuthStateChanged firebaseUser s) = activePage s) as Hpage
    by (by intros [fu|] s).
  split_and!.
  - intros s. unfold showHome, showMenu, showAdminDashboard, showAccessDenied.
    destruct (activePage s), (isAdmin s); reflexivity.
  - intros firebaseUser s. unfold showAdminDashboard.
    rewrite andb_true_iff, bool_decide_eq_true, Hpage, Hadmin. done.
  - intros firebaseUser s. unfold showAccessDenied.
    rewrite andb_true_iff, bool_decide_eq_true, Hpage, negb_true_iff.
    rewrite <- Hadmin. by rewrite not_true_iff_false.
Qed.

(** ** More on the revenue chart *)

Section chart_sums.
Implicit Types (stats : Stats) (k : string) (v a : Z) (o : Order.t).

Lemma stats_set_sum k a stats :
  chartSum (statsData (stats_set k (or_zero (stats_get k stats) + a) stats))
  = chartSum (statsData stats) + a.
Proof.
  unfold statsData. induction stats as [|[k' v'] stats IH];
    cbn [stats_get stats_set].
  - cbn. lia.
  - case_decide as Hk.
    + rewrite or_zero_Some. cbn. lia.
    + rewrite !fmap_cons. cbn [chartSum]. rewrite IH. cbn. lia.
Qed.

Lemma foldl_sum tz (orders : list Order.t) :
  ∀ stats,
    chartSum (statsData (foldl (chartData_step tz) stats orders))
    = chartSum (statsData stats) + revenue orders.
Proof.
  induction orders as [|o orders IH]; intros stats; cbn [foldl revenue]; [lia|].
  rewrite IH. unfold chartData_step. rewrite stats_set_sum. lia.
Qed.


End chart_sums.

(** The groups of the revenue chart add up to the revenue of all the
    orders: no order is counted twice and none is left out. *)
Theorem chart_conserves_revenue (tz : Z) (orders : list Order.t) :
  chartSum (chartData tz orders) = revenue orders.
Proof.
  unfold chartData, chartData_stats.
  fold (statsData (foldl (chartData_step tz) [] orders)).
  rewrite foldl_sum. cbn. lia.
Qed.


(** The chart does not depend on the order in which the feed delivers the
    orders, up to the order of its bars. *)
Theorem chart_order_independent (tz : Z) (orders orders' : list Order.t) :
  orders ≡ₚ orders' → chartData tz orders ≡ₚ chartData tz orders'.
Proof.
  intros Hperm.
  assert (∀ os, NoDup (chartData tz os)) as Hnd.
  { intros os. eapply NoDup_fmap_1. rewrite chartData_names.
    apply chartData_stats_NoDup. }
  apply NoDup_Permutation; [apply Hnd..|].
  intros [k v]. rewrite !chartData_elem.
  assert (group tz k orders ≡ₚ group tz k orders') as Hg
    by (unfold group; by rewrite Hperm).
  rewrite (revenue_Permutation _ _ Hg).
  assert (group tz k orders ≠ [] ↔ group tz k orders' ≠ []) as ->; [|done].
  split; intros Hne Hnil; apply Hne.
  - rewrite Hnil in Hg. by apply Permutation_nil_r in Hg.
  - rewrite Hnil in Hg. by apply Permutation_nil_l in Hg.
Qed.

Lemma chart_order_independent_witness :
  chartData seoul [order_thu_noon; order_wed_noon; order_wed_one] ≡ₚ
  chartData seoul [order_wed_noon; order_wed_one; order_thu_noon].
Proof.
  apply (chart_order_independent seoul
           [order_thu_noon; order_wed_noon; order_wed_one]
           [order_wed_noon; order_wed_one; order_thu_noon]).
  apply (Permutation_cons_append [order_wed_noon; order_wed_one] order_thu_noon).
Defined.

(** ** More on the add-menu form *)

Lemma or_string_nonempty (a : option string) (b : string) : b ≠ "" → or_string a b ≠ "".
Proof.
  intros Hb. unfold or_string. destruct a as [x|]; [|done].
  destruct (truthy_string x) eqn:Hx; [|done]. by apply truthy_string_nonempty.
Qed.

(** Whatever the form holds, a submission sends nothing or one insert, and
    an item that it inserts has a name, a price that is a number other
    than zero, and an image: the address typed in the form, or when none
    was typed the placeholder address made from a random number. *)
Theorem add_menu_payload (rnd : string) (stored : bool) (a : AdminState) (s : AppState) :
  let s' := (handleAddSubmit rnd stored a s).2 in
  requests s' = requests s ∨
  ∃ item,
    requests s' = requests s ++ [addDoc_menus item] ∧
    NewMenuItem.name item ≠ "" ∧
    truthy_number (NewMenuItem.price item) = true ∧
    NewMenuItem.imageUrl item ≠ "" ∧
    NewMenuItem.imageUrl item =
      match NewMenuForm.imageUrl (newMenu a) with
      | Some (String c url) => String c url
      | _ => "https://picsum.photos/400/300?random=" +:+ rnd
      end.
Proof.
  unfold handleAddSubmit.
  destruct (truthy_string _ && truthy_number _) eqn:E; [|by left].
  apply andb_true_iff in E as [Hn Hp]. right. eexists. split.
  - cbn. destruct stored; reflexivity.
  - cbn. split_and!.
    + by apply truthy_string_nonempty.
    + done.
    + by apply or_string_nonempty.
    + by destruct (NewMenuForm.imageUrl (newMenu a)) as [[|c url]|].
Qed.

(** A submission that inserts resets the form, and one that does not
    leaves everything as it is: in both cases submitting again right away
    changes nothing, so one filling of the form inserts at most once. *)
Theorem add_menu_submit_twice (rnd rnd' : string) (stored stored' : bool)
    (a : AdminState) (s : AppState) :
  let once := handleAddSubmit rnd stored a s in
  handleAddSubmit rnd' stored' once.1 once.2 = once.
Proof.
  cbv zeta. unfold handleAddSubmit at 2 3 4.
  destruct (truthy_string _ && truthy_number _) eqn:E; cbn [fst snd].
  - reflexivity.
  - unfold handleAddSubmit. by rewrite E.
Qed.

(** ** What a session can reach

    The properties below hold in every state that a sequence of events
    reaches from the initial state of the application. *)

Section session_lemmas.
Implicit Types (s : AppState) (e : Event) (c : Cart).

Lemma sound_frame s s' :
  cart s' = cart s → requests s' = requests s → sound s → sound s'.
Proof. unfold sound. by intros -> ->. Qed.

Lemma sound_cart s (f : Cart → Cart) :
  (cart_ok (cart s) → Forall (λ i, CartItem.available i = true) (cart s) →
   cart_ok (f (cart s)) ∧ Forall (λ i, CartItem.available i = true) (f (cart s))) →
  sound s → sound (setCart f s).
Proof. intros Hf (Hok & Hav & Hreq). destruct (Hf Hok Hav). by split_and!. Qed.

Lemma sound_send s (r : Request) : request_ok r → sound s → sound (send r s).
Proof.
  intros Hr (Hok & Hav & Hreq). split_and!; [done..|].
  cbn. apply Forall_app. split; [done|]. by apply Forall_singleton.
Qed.

Lemma sound_toast s t : sound s → sound (setToast t s).
Proof. by apply sound_frame. Qed.

Lemma available_add (item : MenuItem.t) c :
  MenuItem.available item = true →
  Forall (λ i, CartItem.available i = true) c →
  Forall (λ i, CartItem.available i = true) (addToCart_update item c).
Proof.
  intros Hitem Hc. destruct (decide (MenuItem.id item ∈ cart_ids c)) as [Hin|Hnin].
  - rewrite add_present by done. apply Forall_fmap.
    eapply Forall_impl; [exact Hc|]. intros i Hi. cbn. by case_decide.
  - rewrite add_absent by done. apply Forall_app. split; [done|].
    by apply Forall_singleton.
Qed.

Lemma available_update (k : string) (delta : Z) c :
  Forall (λ i, CartItem.available i = true) c →
  Forall (λ i, CartItem.available i = true) (updateQuantity_update k delta c).
Proof.
  intros Hc. apply Forall_fmap. eapply Forall_impl; [exact Hc|].
  intros i Hi. cbn. by case_decide.
Qed.

Lemma available_remove (k : string) c :
  Forall (λ i, CartItem.available i = true) c →
  Forall (λ i, CartItem.available i = true) (removeFromCart_update k c).
Proof.
  rewrite !Forall_forall. intros Hc i Hi.
  apply list_elem_of_filter in Hi as [_ Hi]. by apply Hc.
Qed.

Lemma sound_handleLogin (login : LoginOutcome) s : sound s → sound (handleLogin login s).
Proof.
  intros Hs. unfold handleLogin. destruct (isLoggingIn s); [done|].
  unfold andThen, skip. destruct login.
  - eapply sound_frame; [| |apply (sound_send s signInWithPopup); [done|exact Hs]]; done.
  - eapply sound_frame; [| |apply (sound_send s signInWithPopup); [done|exact Hs]]; done.
Qed.

Lemma sound_handleCheckout (now : Z) (stored : bool) (login : LoginOutcome)
    (form : CheckoutForm) s :
  submitDisabled form = false → sound s → sound (handleCheckout now stored login form s).
Proof.
  intros Hform Hs. unfold handleCheckout. destruct (user s) as [u|].
  - set (od := OrderData.mk _ _ _ _ _ _ _ _ _ _).
    assert (request_ok (addDoc_orders od)) as Hod.
    { destruct Hs as (Hok & Hav & _). unfold submitDisabled in Hform.
      apply orb_false_iff in Hform as [Hform Hdate].
      apply orb_false_iff in Hform as [Haddr Hcontact].
      rewrite negb_false_iff in Haddr, Hcontact, Hdate.
      apply truthy_string_nonempty in Haddr, Hcontact, Hdate.
      cbn. split_and!; try done.
      - apply cartTotal_sum.
      - by apply or_string_nonempty. }
    pose proof (sound_send s _ Hod Hs) as Hsent.
    unfold andThen. destruct stored.
    + destruct Hsent as (_ & _ & Hreq). split_and!; [apply empty_ok|apply Forall_nil_2|done].
    + by apply sound_toast.
  - unfold andThen. by apply sound_handleLogin, sound_toast.
Qed.

Lemma sound_handle e s : sound s → sound (handle e s).
Proof.
  intros Hs. destruct e; cbn [handle].
  - destruct firebaseUser; by eapply sound_frame.
  - by eapply sound_frame.
  - unfold onOrdersSnapshot. destruct (isAdmin s); [by eapply sound_frame|done].
  - destruct (user s); [done|]. by apply sound_handleLogin.
  - destruct (user s); [|done]. unfold handleLogout, andThen.
    apply sound_toast. eapply sound_frame; [| |apply (sound_cart (send signOut s) (λ _, []))].
    + reflexivity.
    + reflexivity.
    + intros _ _. split; [apply empty_ok | apply Forall_nil_2].
    + by apply sound_send.
  - destruct page; [by eapply sound_frame..|].
    destruct (isAdmin s); [by eapply sound_frame|done].
  - destruct (showMenu s); [|done]. destruct (menus s !! card) as [item|]; [|done].
    destruct (MenuItem.available item) eqn:Hitem; [|done].
    unfold addToCart, andThen. apply sound_toast, sound_cart; [|done].
    intros Hok Hav. split; [by apply add_ok | by apply available_add].
  - by eapply sound_frame.
  - destruct (isCartOpen s); [by eapply sound_frame|done].
  - destruct (isCartOpen s); [|done]. destruct (cart s !! row) as [item|]; [|done].
    case_decide; [done|]. apply sound_cart; [|done].
    intros Hok Hav. split; [by apply update_ok | by apply available_update].
  - destruct (isCartOpen s); [|done]. destruct (cart s !! row) as [item|]; [|done].
    apply sound_cart; [|done].
    intros Hok Hav. split; [by apply update_ok | by apply available_update].
  - destruct (isCartOpen s); [|done]. destruct (cart s !! row) as [item|]; [|done].
    apply sound_cart; [|done].
    intros Hok Hav. split; [by apply remove_ok | by apply available_remove].
  - destruct (isCartOpen s); [|done]. destruct (cart s) eqn:Hc; [done|].
    eapply sound_frame; [| |exact Hs]; done.
  - destruct (isCheckoutOpen s); [by eapply sound_frame|done].
  - destruct (isCheckoutOpen s && negb (submitDisabled form)) eqn:Hg; [|done].
    apply andb_true_iff in Hg as [_ Hg]. apply negb_true_iff in Hg.
    by apply sound_handleCheckout.
  - destruct (showAdminDashboard s && isAddModalOpen dashboard); [|done].
    unfold handleAddSubmit.
    destruct (truthy_string _ && truthy_number _) eqn:E; [|done].
    apply andb_true_iff in E as [Hn Hp]. apply truthy_string_nonempty in Hn.
    cbn [snd]. unfold addMenu, andThen.
    destruct stored; apply sound_toast, sound_send; try done.
    all: cbn; split_and!; try done; by apply or_string_nonempty.
  - destruct (showAdminDashboard s); [|done].
    destruct (menus s !! row) as [item|]; [|done].
    unfold deleteMenu. destruct confirmed; [|done]. cbn [negb]. unfold andThen.
    destruct deleted; apply sound_toast; by apply sound_send.
  - destruct (showAdminDashboard s); [|done].
    destruct (orders s !! row) as [o|]; [|done].
    unfold updateOrderStatus, andThen.
    destruct updated; apply sound_toast; by apply sound_send.
  - by apply sound_toast.
Qed.

Lemma sound_run (es : list Event) s : sound s → sound (run es s).
Proof.
  revert s. induction es as [|e es IH]; intros s Hs; [done|].
  cbn [run foldl]. apply IH. by apply sound_handle.
Qed.

Lemma sound_initial : sound initialApp.
Proof. split_and!; [apply empty_ok | apply Forall_nil_2 | apply Forall_nil_2]. Qed.
End session_lemmas.

(** Whatever the user and the outside world do, the cart keeps one entry
    per dish with a quantity of at least 1, and holds only dishes that were
    on sale when they were added: the add button of a dish that is sold
    out is disabled. *)
Theorem session_cart_is_sound (es : list Event) :
  cart_ok (cart (run es initialApp)) ∧
  Forall (λ i, CartItem.available i = true) (cart (run es initialApp)).
Proof.
  destruct (sound_run es initialApp sound_initial) as (Hok & Hav & _). done.
Qed.

(** Whatever the user and the outside world do, every write that goes to
    the store is well formed.  An order is pending, its total is the sum
    over its own items of price times quantity, its items are distinct
    dishes in quantities of at least 1, and its address, contact, delivery
    date and email are not empty; a menu item has a name, a price that is a
    number other than zero and an image.  So the checks that the views make
    before a submission are never bypassed. *)
Theorem every_write_is_well_formed (es : list Event) :
  Forall request_ok (requests (run es initialApp)).
Proof.
  destruct (sound_run es initialApp sound_initial) as (_ & _ & Hreq). done.
Qed.

Section customer_lemmas.
Implicit Types (s : AppState) (e : Event).

Lemma email_not_admin (email : option string) :
  email ≠ Some ADMIN_EMAIL → email_is_admin email = false.
Proof.
  intros Hne. destruct email as [x|]; [|done]. cbn.
  apply bool_decide_eq_false. congruence.
Qed.

Lemma customer_state_step s s' (sent : list Request) :
  isAdmin s' = isAdmin s →
  activePage s' = activePage s ∨ activePage s' = home ∨ activePage s' = menu →
  orders s' = orders s →
  requests s' = requests s ++ sent →
  Forall (λ r, admin_write r = false) sent →
  customer_state s → customer_state s'.
Proof.
  intros Ha Hp Ho Hr Hsent (Hadm & Hpage & Hord & Hreq). split_and!.
  - congruence.
  - destruct Hp as [->|[->| ->]]; done.
  - congruence.
  - rewrite Hr. by apply Forall_app.
Qed.

Ltac customer_frame s Hs :=
  eapply (customer_state_step s _ []);
  [done | by left | done | by rewrite app_nil_r | apply Forall_nil_2 | exact Hs].

Lemma customer_handleLogin (login : LoginOutcome) s :
  customer_state s → customer_state (handleLogin login s).
Proof.
  intros Hs. unfold handleLogin. destruct (isLoggingIn s) eqn:Hl; [done|].
  destruct login;
    (eapply (customer_state_step s _ [signInWithPopup]);
     [done | by left | done | done | by repeat constructor | exact Hs]).
Qed.

Lemma customer_handle e s :
  customer_event e → customer_state s → customer_state (handle e s).
Proof.
  intros He Hs. pose proof Hs as (Hadm & Hpage & Hord & Hreq).
  assert (showAdminDashboard s = false) as Hdash
    by (unfold showAdminDashboard; rewrite Hadm; apply andb_false_r).
  destruct e; cbn [handle]; rewrite ?Hdash, ?andb_false_l.
  - destruct firebaseUser as [fu|]; cbn in He.
    + split_and!; try done. cbn. by apply email_not_admin.
    + by split_and!.
  - customer_frame s Hs.
  - unfold onOrdersSnapshot. by rewrite Hadm.
  - destruct (user s); [done|]. by apply customer_handleLogin.
  - destruct (user s); [|done].
    eapply (customer_state_step s _ [signOut]);
      [done | right; by left | done | done | by repeat constructor | exact Hs].
  - destruct page.
    + eapply (customer_state_step s _ []);
        [done | right; by left | done | by rewrite app_nil_r | apply Forall_nil_2 | exact Hs].
    + eapply (customer_state_step s _ []);
        [done | right; by right | done | by rewrite app_nil_r | apply Forall_nil_2 | exact Hs].
    + by rewrite Hadm.
  - destruct (showMenu s); [|done]. destruct (menus s !! card) as [item|]; [|done].
    destruct (MenuItem.available item); [|done].
    customer_frame s Hs.
  - customer_frame s Hs.
  - destruct (isCartOpen s); [|done].
    customer_frame s Hs.
  - destruct (isCartOpen s); [|done]. destruct (cart s !! row) as [item|]; [|done].
    case_decide; [done|].
    customer_frame s Hs.
  - destruct (isCartOpen s); [|done]. destruct (cart s !! row) as [item|]; [|done].
    customer_frame s Hs.
  - destruct (isCartOpen s); [|done]. destruct (cart s !! row) as [item|]; [|done].
    customer_frame s Hs.
  - destruct (isCartOpen s); [|done]. destruct (cart s); [done|].
    customer_frame s Hs.
  - destruct (isCheckoutOpen s); [|done].
    customer_frame s Hs.
  - destruct (isCheckoutOpen s && negb (submitDisabled form)); [|done].
    unfold handleCheckout. destruct (user s) as [u|] eqn:Hu.
    + set (od := OrderData.mk _ _ _ _ _ _ _ _ _ _).
      destruct stored;
        (eapply (customer_state_step s _ [addDoc_orders od]);
         [unfold isAdmin; cbn; by rewrite Hu | by left | done | done
         | by repeat constructor | exact Hs]).
    + unfold andThen. apply customer_handleLogin.
      customer_frame s Hs.
  - done.
  - done.
  - done.
  - customer_frame s Hs.
Qed.
End customer_lemmas.

(** As long as the listener never reports the administrator, the session
    never has the administrator flag, never reaches the admin page, never
    receives the orders of the feed, and never sends a write on the menu
    or on an order. *)
Theorem customers_stay_out (es : list Event) :
  Forall customer_event es →
  let s := run es initialApp in
  isAdmin s = false ∧ activePage s ≠ admin ∧ showAdminDashboard s = false ∧
  orders s = [] ∧ Forall (λ r, admin_write r = false) (requests s).
Proof.
  intros Hes.
  assert (∀ s, customer_state s → customer_state (run es s)) as Hrun.
  { induction Hes as [|e es He _ IH]; intros s Hs; [done|].
    cbn [run foldl]. apply IH. by apply customer_handle. }
  destruct (Hrun initialApp) as (Hadm & Hpage & Hord & Hreq).
  { split_and!; [done..|apply Forall_nil_2]. }
  split_and!; try done.
  unfold showAdminDashboard. rewrite Hadm. apply andb_false_r.
Qed.

Lemma customers_stay_out_witness :
  let es := [ev_authStateChanged (Some (FirebaseUser.mk "u1" (Some "kim@example.com") None None));
             ev_menusSnapshot [bulgogi; sold_out];
             ev_clickNav admin;
             ev_ordersSnapshot [order_wed_noon];
             ev_clickDeleteMenu true true 0;
             ev_clickNav menu;
             ev_clickAddToCart 0] in
  let s := run es initialApp in
  isAdmin s = false ∧ activePage s ≠ admin ∧ showAdminDashboard s = false ∧
  orders s = [] ∧ Forall (λ r, admin_write r = false) (requests s).
Proof.
  intros es. apply (customers_stay_out es).
  subst es. repeat constructor. cbn. discriminate.
Defined.

(** The lists of dishes and of orders held by the application change only
    when the feeds deliver a snapshot: no click, and in particular no
    write of the dashboard, edits them locally. *)
Theorem only_snapshots_change_the_feeds (e : Event) (s : AppState) :
  is_snapshot e = false →
  menus (handle e s) = menus s ∧ orders (handle e s) = orders s.
Proof.
  intros He. destruct e; try discriminate; cbn [handle];
    unfold onAuthStateChanged, handleLogin, handleLogout, handleCheckout,
      handleAddSubmit, addMenu, deleteMenu, updateOrderStatus, addToCart,
      updateQuantity, removeFromCart, andThen, skip;
    repeat case_match; try done.
  unfold handleLogin, andThen, skip. by repeat case_match.
Qed.

Lemma only_snapshots_change_the_feeds_witness :
  let s := setActivePage admin
             (setMenus [bulgogi; galbi] (onAuthStateChanged (Some admin_user) initialApp)) in
  menus (handle (ev_clickDeleteMenu true true 0) s) = menus s ∧
  orders (handle (ev_clickDeleteMenu true true 0) s) = orders s.
Proof.
  intros s. apply (only_snapshots_change_the_feeds (ev_clickDeleteMenu true true 0) s).
  reflexivity.
Defined.

(** The identity held by the application changes only when the listener
    reports one (a logout by itself leaves it in place until then), and
    the cart changes only through its own buttons, a logout and a
    checkout: neither a new menu, nor a change of identity, nor anything
    the administrator does touches the cart. *)
Theorem events_leave_alone (e : Event) (s : AppState) :
  (is_auth e = false → user (handle e s) = user s) ∧
  (touches_cart e = false → cart (handle e s) = cart s).
Proof.
  split; intros He; destruct e; try discriminate; cbn [handle];
    unfold onOrdersSnapshot, onAuthStateChanged, handleLogin, handleLogout,
      handleCheckout, handleAddSubmit, addMenu, deleteMenu, updateOrderStatus,
      addToCart, updateQuantity, removeFromCart, andThen, skip;
    repeat case_match; try done.
  unfold handleLogin, andThen, skip. by repeat case_match.
Qed.

Lemma events_leave_alone_witness :
  let s := add_all [bulgogi; galbi] (onAuthStateChanged (Some admin_user) initialApp) in
  cart (handle (ev_authStateChanged None) s) = cart s.
Proof.
  intros s. apply (proj2 (events_leave_alone (ev_authStateChanged None) s)).
  reflexivity.
Defined.

(** In the cart drawer a click on plus raises the number in the badge by
    one, and a click on minus lowers it by one, or does nothing on a row
    whose quantity is 1: through the drawer no quantity is ever pushed
    against its floor. *)
Theorem drawer_buttons_step_by_one (s : AppState) (row : nat) (item : CartItem.t) :
  cart_ok (cart s) → isCartOpen s = true → cart s !! row = Some item →
  cartCount (cart (handle (ev_clickPlus row) s)) = cartCount (cart s) + 1 ∧
  cartCount (cart (handle (ev_clickMinus row) s))
  = cartCount (cart s) - (if decide (CartItem.quantity item ≤ 1) then 0 else 1).
Proof.
  intros [Hnd Hq] Hopen Hrow. cbn [handle]. rewrite Hopen, Hrow.
  assert (item ∈ cart s) as Hin by (by eapply list_elem_of_lookup_2).
  assert (∀ delta j, CartItem.id j ≠ CartItem.id item →
            (if decide (CartItem.id j = CartItem.id item)
             then CartItem.with_quantity j (Z.max 1 (CartItem.quantity j + delta))
             else j) = j) as Hother
    by (intros delta j Hj; by rewrite decide_False).
  assert (∀ k delta, cart (updateQuantity k delta s)
                     = updateQuantity_update k delta (cart s)) as Hcart by done.
  split.
  - rewrite Hcart. unfold updateQuantity_update.
    destruct (fmap_one_entry _ (cart s) item Hnd Hin (Hother 1)) as [-> _].
    rewrite decide_True by done. cbn [CartItem.quantity CartItem.with_quantity].
    rewrite Forall_forall in Hq. specialize (Hq item Hin). cbn in Hq. lia.
  - case_decide as Hitem; [lia|]. rewrite Hcart. unfold updateQuantity_update.
    destruct (fmap_one_entry _ (cart s) item Hnd Hin (Hother (-1))) as [-> _].
    rewrite decide_True by done. cbn [CartItem.quantity CartItem.with_quantity]. lia.
Qed.

Lemma drawer_buttons_step_by_one_witness :
  let s := setIsCartOpen true (add_all [bulgogi; bulgogi; galbi] initialApp) in
  cartCount (cart (handle (ev_clickPlus 1) s)) = cartCount (cart s) + 1 ∧
  cartCount (cart (handle (ev_clickMinus 1) s))
  = cartCount (cart s)
    - (if decide (CartItem.quantity (CartItem.of_menu galbi 1) ≤ 1) then 0 else 1).
Proof.
  intros s. apply (drawer_buttons_step_by_one s 1 (CartItem.of_menu galbi 1)).
  - split; apply (bool_decide_unpack _); reflexivity.
  - reflexivity.
  - reflexivity.
Defined.

(** After a checkout that the store accepted, submitting again and
    clicking the checkout button of the drawer both do nothing: the modal
    is closed and the cart is empty, so the next order needs a new cart. *)
Theorem no_second_order_after_success (now now' : Z) (stored' : bool)
    (login login' : LoginOutcome) (form form' : CheckoutForm)
    (s : AppState) (u : UserProfile.t) :
  user s = Some u → isCheckoutOpen s = true → submitDisabled form = false →
  let s1 := handle (ev_submitCheckout now true login form) s in
  (∃ od, requests s1 = requests s ++ [addDoc_orders od]) ∧
  handle (ev_submitCheckout now' stored' login' form') s1 = s1 ∧
  handle ev_clickCheckout s1 = s1.
Proof.
  intros Hu Hopen Hform. cbn [handle]. rewrite Hopen, Hform. cbn [andb negb].
  unfold handleCheckout. rewrite Hu. cbn. split_and!; [eauto|done..].
Qed.

Lemma no_second_order_after_success_witness :
  let s := setIsCheckoutOpen true
             (add_all [bulgogi; galbi] (setUser (Some customer) initialApp)) in
  let form := mkForm "서울시 강남구 테헤란로 123" "010-1111-2222" "2024-05-01" lunch in
  let s1 := handle (ev_submitCheckout 1714518000000 true LoginResolved form) s in
  (∃ od, requests s1 = requests s ++ [addDoc_orders od]) ∧
  handle (ev_submitCheckout 1714518060000 true LoginResolved form) s1 = s1 ∧
  handle ev_clickCheckout s1 = s1.
Proof.
  intros s form.
  exact (no_second_order_after_success 1714518000000 1714518060000 true
           LoginResolved LoginResolved form form s customer eq_refl eq_refl eq_refl).
Defined.
